(** * argopy.fetchers: the data and index facades

    A shallow embedding of [argopy/fetchers.py].  The module is glue code
    around external collaborators (backend fetcher classes, option
    validators, plotters); those are taken as parameters, the two facade
    classes [ArgoDataFetcher] and [ArgoIndexFetcher] are embedded method by
    method.

    Python objects have identity and are mutated in place, so facades and
    backend fetcher instances live in a store and methods are computations
    in a state-and-exception monad over that store. *)

From Stdlib Require Import ZArith Bool.
From stdpp Require Import base option list strings gmap.

Set Default Proof Using "Type".

(** ** Python values, dictionaries, exceptions *)

(** The fragment of Python values that crosses the facade: identifiers,
    boxes, option values.  The facade never inspects them, except that the
    [ds] argument is compared with [''] and [None]. *)
#[warnings="-register-all"]
Inductive pyval :=
| PyNone
| PyBool (b : bool)
| PyInt (z : Z)
| PyStr (s : string)
| PyList (l : list pyval).

(** A [dict] with string keys.  Python dictionaries keep insertion order
    and [",".join(d.keys())] observes it, so a dictionary is an association
    list without duplicate keys. *)
Definition dict (V : Type) := list (string * V).

Definition keys {V} (d : dict V) : list string := d.*1.

Fixpoint dict_get {V} (k : string) (d : dict V) : option V :=
  match d with
  | [] => None
  | (k', v) :: d' => if decide (k = k') then Some v else dict_get k d'
  end.

(** [k in d] *)
Definition dict_in {V} (k : string) (d : dict V) : bool :=
  bool_decide (is_Some (dict_get k d)).

(** [d[k] = v]: an existing key keeps its position, a new key goes last. *)
Fixpoint dict_set {V} (k : string) (v : V) (d : dict V) : dict V :=
  match d with
  | [] => [(k, v)]
  | (k', v') :: d' =>
      if decide (k = k') then (k', v) :: d' else (k', v') :: dict_set k v d'
  end.

(** The merge of two dictionaries by double-star unpacking: the entries
    of [d2] are written over [d1]. *)
Definition dict_merge {V} (d1 d2 : dict V) : dict V :=
  foldl (λ acc kv, dict_set kv.1 kv.2 acc) d1 d2.

Definition kwargs := dict pyval.

(** [sep.join(l)] *)
Definition join (sep : string) (l : list string) : string :=
  String.concat sep l.

(** Exceptions: the builtin ones the facade raises itself, the two of
    [argopy.errors], and whatever a collaborator raises. *)
Inductive exn :=
| ValueError (msg : string)
| TypeError (msg : string)
| IndexError (msg : string)
| AttributeError (msg : string)
| RecursionError (msg : string)
| InvalidFetcherAccessPoint (msg : string)
| InvalidFetcher (msg : string)
| CollaboratorError (msg : string).

Inductive res (A : Type) :=
| Ok (a : A)
| Raise (e : exn).
Arguments Ok {A} a.
Arguments Raise {A} e.

#[global] Instance res_ret : MRet res := λ A a, Ok a.
#[global] Instance res_bind : MBind res := λ A B f r,
  match r with
  | Ok a => f a
  | Raise e => Raise e
  end.

(** ** The object store *)

(** Object references. *)
Abbreviation loc := nat.

(** What the facade does to the outside world: it invokes backend
    constructors, emits warnings and calls plotters. *)
Inductive event (Frame : Type) :=
| EvConstruct (kw : kwargs)
| EvWarn (msg : string)
| EvPlot (plotter : string) (arg : Frame).
Arguments EvConstruct {Frame} kw.
Arguments EvWarn {Frame} msg.
Arguments EvPlot {Frame} plotter arg.

(** [F] is the class of the facades, [O] the class of the backend fetcher
    instances.  Objects are never freed: a new object gets the next free
    location. *)
Record World (F O Frame : Type) := mkWorld {
  facades : list F;
  fetchers : list O;
  trace : list (event Frame);
}.
Arguments mkWorld {F O Frame}.
Arguments facades {F O Frame}.
Arguments fetchers {F O Frame}.
Arguments trace {F O Frame}.

Definition empty_world {F O Frame} : World F O Frame := mkWorld [] [] [].

Section Monad.
Context {F O Frame : Type}.
Abbreviation W := (World F O Frame).

(** A method body: it reads and writes the store and returns or raises.
    An exception does not roll the store back. *)
Definition M (A : Type) : Type := W → res A * W.

#[global] Instance M_ret : MRet M := λ A a w, (Ok a, w).
#[global] Instance M_bind : MBind M := λ A B f m w,
  match m w with
  | (Ok a, w') => f a w'
  | (Raise e, w') => (Raise e, w')
  end.

Definition raise {A} (e : exn) : M A := λ w, (Raise e, w).

(** Result of a pure collaborator call. *)
Definition lift {A} (r : res A) : M A := λ w, (r, w).

Definition emit (ev : event Frame) : M unit :=
  λ w, (Ok (), mkWorld (facades w) (fetchers w) (trace w ++ [ev])).

(** [self.<attr>] for reading: the facade object behind a reference. *)
Definition deref (self : loc) : M F := λ w,
  match facades w !! self with
  | Some f => (Ok f, w)
  | None => (Raise (AttributeError "dangling reference"), w)
  end.

(** [self.<attr> = v], as an update of the object. *)
Definition assign (self : loc) (upd : F → F) : M unit := λ w,
  match facades w !! self with
  | Some f => (Ok (), mkWorld (<[self := upd f]> (facades w)) (fetchers w) (trace w))
  | None => (Raise (AttributeError "dangling reference"), w)
  end.

(** A new facade object. *)
Definition new_facade (f : F) : M loc := λ w,
  (Ok (length (facades w)),
   mkWorld (facades w ++ [f]) (fetchers w) (trace w)).

(** The backend fetcher instance behind a reference. *)
Definition deref_fetcher (l : loc) : M O := λ w,
  match fetchers w !! l with
  | Some o => (Ok o, w)
  | None => (Raise (AttributeError "dangling reference"), w)
  end.

(** A backend fetcher instance that has just been created. *)
Definition new_fetcher (o : O) : M loc := λ w,
  (Ok (length (fetchers w)),
   mkWorld (facades w) (fetchers w ++ [o]) (trace w)).

(** A constructor call with explicit keywords followed by an unpacked
    options dictionary.  Python refuses a keyword given twice, with a
    [TypeError], before the callee runs; otherwise the constructor runs,
    and the instance it returns is a new object.  The text of that
    [TypeError] is schematic: the interpreter puts the name of the callee
    in front, and nothing below depends on the text. *)
Definition construct (ctor : kwargs → res O) (explicit options : kwargs)
  : M loc :=
  match find (λ k, dict_in k options) (keys explicit) with
  | Some k =>
      raise (TypeError ("got multiple values for keyword argument '" +:+ k +:+ "'"))
  | None =>
      let kw := explicit ++ options in
      emit (EvConstruct kw) ;;
      o ← lift (ctor kw) ;
      new_fetcher o
  end.
End Monad.

(** ** Collaborators *)

(** A backend data fetcher instance, as the facade uses it. *)
Record DataFetcherObj (Dataset : Type) := {
  fetch_to_xarray : kwargs → res Dataset;
  filter_data_mode : Dataset → res Dataset;
  filter_qc : Dataset → res Dataset;
  filter_variables : Dataset → string → res Dataset;
}.
Arguments fetch_to_xarray {Dataset}.
Arguments filter_data_mode {Dataset}.
Arguments filter_qc {Dataset}.
Arguments filter_variables {Dataset}.

(** A backend index fetcher instance. *)
Record IndexFetcherObj (Dataset Frame : Type) := {
  index_to_dataframe : kwargs → res Frame;
  index_to_xarray : kwargs → res Dataset;
}.
Arguments index_to_dataframe {Dataset Frame}.
Arguments index_to_xarray {Dataset Frame}.

(** A backend module of [AVAILABLE_SOURCES]. *)
Record Backend (Dataset Frame : Type) := {
  access_points : list string;
  dataset_ids : list string;
  Fetch_wmo : kwargs → res (DataFetcherObj Dataset);
  Fetch_box : kwargs → res (DataFetcherObj Dataset);
  IndexFetcher_wmo : kwargs → res (IndexFetcherObj Dataset Frame);
  IndexFetcher_box : kwargs → res (IndexFetcherObj Dataset Frame);
}.
Arguments access_points {Dataset Frame}.
Arguments dataset_ids {Dataset Frame}.
Arguments Fetch_wmo {Dataset Frame}.
Arguments Fetch_box {Dataset Frame}.
Arguments IndexFetcher_wmo {Dataset Frame}.
Arguments IndexFetcher_box {Dataset Frame}.

(** Everything [fetchers.py] imports: [argopy.options], the registry built
    by [list_available_data_src], the plotters, and the [xarray] and
    [pandas] methods it calls on results. *)
Record Env (Dataset Frame Figure : Type) := {
  OPTIONS : string → string;
  _VALIDATORS : string → pyval → res unit;
  AVAILABLE_SOURCES : gmap string (Backend Dataset Frame);
  plot_trajectory : Frame → res Figure;
  plot_dac : Frame → res Figure;
  plot_profilerType : Frame → res Figure;
  Dataset_to_dataframe : Dataset → res Frame;
  Frame_sort_values : Frame → list string → res Frame;
  Frame_to_csv : Frame → string → res pyval;
}.
Arguments OPTIONS {Dataset Frame Figure}.
Arguments _VALIDATORS {Dataset Frame Figure}.
Arguments AVAILABLE_SOURCES {Dataset Frame Figure}.
Arguments plot_trajectory {Dataset Frame Figure}.
Arguments plot_dac {Dataset Frame Figure}.
Arguments plot_profilerType {Dataset Frame Figure}.
Arguments Dataset_to_dataframe {Dataset Frame Figure}.
Arguments Frame_sort_values {Dataset Frame Figure}.
Arguments Frame_to_csv {Dataset Frame Figure}.

(** The [ds] argument is a string or [None]. *)
Definition py_of_ds (ds : option string) : pyval :=
  match ds with
  | Some s => PyStr s
  | None => PyNone
  end.

(** The two functions a facade can hold in [postproccessor]: the method
    [__empty_processor] and the closure [postprocessing].  The closure
    captures [self], not the fetcher: it reads [self.fetcher] when it
    runs. *)
Inductive processor := empty_processor | postprocessing.

(** What an attribute access evaluates to: the attribute found by the
    normal lookup, or the value [__getattr__] returned. *)
Inductive attr :=
| Defined (name : string)
| Fallback (v : pyval).

(** Attributes every instance of [object] has. *)
Definition object_attrs : list string :=
  ["__class__"; "__delattr__"; "__dict__"; "__dir__"; "__doc__"; "__eq__";
   "__format__"; "__ge__"; "__getattribute__"; "__gt__"; "__hash__";
   "__init__"; "__init_subclass__"; "__le__"; "__lt__"; "__module__";
   "__ne__"; "__new__"; "__reduce__"; "__reduce_ex__"; "__repr__";
   "__setattr__"; "__sizeof__"; "__str__"; "__subclasshook__";
   "__weakref__"].

(** The line separator of ["\n".join(summary)]. *)
Definition newline : string := String (Ascii.ascii_of_nat 10) EmptyString.

(** ** class ArgoDataFetcher *)

Module ArgoDataFetcher.

Record t (Dataset : Type) := {
  _mode : string;
  _dataset_id : option string;
  _src : string;
  valid_access_points : list string;
  Fetchers : dict (kwargs → res (DataFetcherObj Dataset));
  fetcher : option loc;
  fetcher_options : kwargs;
  postproccessor : processor;
}.
Arguments _mode {Dataset}.
Arguments _dataset_id {Dataset}.
Arguments _src {Dataset}.
Arguments valid_access_points {Dataset}.
Arguments Fetchers {Dataset}.
Arguments fetcher {Dataset}.
Arguments fetcher_options {Dataset}.
Arguments postproccessor {Dataset}.

Definition set_fetcher {Dataset} (l : loc) (f : t Dataset) : t Dataset :=
  {| _mode := _mode f; _dataset_id := _dataset_id f; _src := _src f;
     valid_access_points := valid_access_points f; Fetchers := Fetchers f;
     fetcher := Some l;
     fetcher_options := fetcher_options f;
     postproccessor := postproccessor f |}.

Definition set_postproccessor {Dataset} (p : processor) (f : t Dataset)
  : t Dataset :=
  {| _mode := _mode f; _dataset_id := _dataset_id f; _src := _src f;
     valid_access_points := valid_access_points f; Fetchers := Fetchers f;
     fetcher := fetcher f;
     fetcher_options := fetcher_options f;
     postproccessor := p |}.

(** Methods of the class and attributes [__init__] sets. *)
Definition class_attrs : list string :=
  ["__init__"; "__repr__"; "_ArgoDataFetcher__empty_processor";
   "__getattr__"; "float"; "profile"; "region"; "to_xarray";
   "to_dataframe"].
Definition instance_attrs : list string :=
  ["_mode"; "_dataset_id"; "_src"; "valid_access_points"; "Fetchers";
   "fetcher"; "fetcher_options"; "postproccessor"].

Section Methods.
Context {Dataset Frame Figure : Type}.
Context (env : Env Dataset Frame Figure).

Abbreviation facade := (t Dataset).
Abbreviation fetcher_obj := (DataFetcherObj Dataset).
Abbreviation world := (World facade fetcher_obj Frame).
Abbreviation M := (@M facade fetcher_obj Frame).

(** The loop of [__init__] over [Fetchers.access_points]. *)
Definition discover (B : Backend Dataset Frame)
  : dict (kwargs → res fetcher_obj) :=
  foldl (λ d p,
           let d :=
             if decide (p = "wmo")
             then dict_set "float" (Fetch_wmo B)
                    (dict_set "profile" (Fetch_wmo B) d)
             else d in
           if decide (p = "box")
           then dict_set "region" (Fetch_box B) d
           else d)
        [] (access_points B).

(** [self._mode == 'standard' and self._dataset_id != 'ref'] *)
Definition standard_applies (f : facade) : bool :=
  bool_decide (_mode f = "standard")
  && negb (bool_decide (_dataset_id f = Some "ref")).

(** [ArgoDataFetcher(mode, src, ds, **fetcher_kwargs)]; an argument left
    out is [""].  The object becomes reachable only when [__init__]
    returns, so it enters the store at that point. *)
Definition __init__ (mode src : string) (ds : option string)
    (fetcher_kwargs : kwargs) : M loc :=
  let mode' := if decide (mode = "") then OPTIONS env "mode" else mode in
  let dataset_id :=
    if decide (ds = Some "") then Some (OPTIONS env "dataset") else ds in
  let src' := if decide (src = "") then OPTIONS env "src" else src in
  lift (_VALIDATORS env "mode" (PyStr mode')) ;;
  lift (_VALIDATORS env "src" (PyStr src')) ;;
  lift (_VALIDATORS env "dataset" (py_of_ds dataset_id)) ;;
  match AVAILABLE_SOURCES env !! src' with
  | None => raise (ValueError ("Data fetcher '" +:+ src' +:+ "' not available"))
  | Some B =>
      ds' ← match ds with
            | None =>
                match dataset_ids B with
                | d :: _ => mret (PyStr d)
                | [] => raise (IndexError "list index out of range")
                end
            | Some s => mret (PyStr s)
            end ;
      self ← new_facade
        {| _mode := mode'; _dataset_id := dataset_id; _src := src';
           valid_access_points := ["profile"; "float"; "region"];
           Fetchers := discover B;
           fetcher := None;
           fetcher_options := dict_merge [("ds", ds')] fetcher_kwargs;
           postproccessor := empty_processor |} ;
      (if bool_decide (dataset_id = Some "bgc")
          && bool_decide (mode' = "standard")
       then emit (EvWarn (" 'BGC' dataset fetching in 'standard' user mode is not reliable. "
              +:+ "Try to switch to 'expert' mode if you encounter errors."))
       else mret ()) ;;
      mret self
  end.

(** [__getattr__], which Python calls when the normal lookup fails.  Its
    test reads [self.valid_access_points], an attribute access on [self]
    like any other: [self_attr] is that access.  When it is answered by
    the normal lookup the list is the one [__init__] stored; were it
    answered by [__getattr__] with [None], the membership test would
    fail. *)
Definition __getattr__ (self_attr : string → M attr) (self : loc)
    (key : string) : M pyval :=
  let valid_attrs :=
    ["Fetchers"; "fetcher"; "fetcher_options"; "postproccessor"] in
  access_points ← self_attr "valid_access_points" ;
  match access_points with
  | Defined _ =>
      this ← deref self ;
      if bool_decide (key ∉ valid_access_points this)
         && bool_decide (key ∉ valid_attrs)
      then raise (InvalidFetcherAccessPoint
                    ("'" +:+ key +:+ "' is not a valid access point"))
      else mret PyNone
  | Fallback _ =>
      raise (TypeError "argument of type 'NoneType' is not iterable")
  end.

(** [self.<key>] on an object on which the names [defined] are found by
    the normal lookup (instance dictionary, class, [object]); any other
    name goes to [__getattr__], whose own attribute access on [self] may
    go to [__getattr__] again.  [limit] is the number of such nested calls
    the interpreter still allows; one more raises [RecursionError]. *)
Fixpoint getattr (limit : nat) (defined : list string) (self : loc)
    (key : string) : M attr :=
  if bool_decide (key ∈ defined) then mret (Defined key)
  else
    let self_attr :=
      match limit with
      | S limit => getattr limit defined self
      | 0 => λ name,
          if bool_decide (name ∈ defined) then mret (Defined name)
          else raise (RecursionError "maximum recursion depth exceeded")
      end in
    v ← __getattr__ self_attr self key ; mret (Fallback v).

(** The tail shared by the three access points. *)
Definition install_postprocessing (self : loc) : M unit :=
  this ← deref self ;
  if standard_applies this
  then assign self (set_postproccessor postprocessing)
  else mret ().

Definition float (self : loc) (wmo : pyval) (kw : kwargs) : M loc :=
  if dict_in "CYC" kw || dict_in "cyc" kw
  then raise (TypeError ("float() got an unexpected keyword argument 'cyc'. Use 'profile' access "
              +:+ "point to fetch specific profile data."))
  else
    this ← deref self ;
    match dict_get "float" (Fetchers this) with
    | Some ctor =>
        l ← construct ctor [("WMO", wmo)] (fetcher_options this) ;
        assign self (set_fetcher l) ;;
        install_postprocessing self ;;
        mret self
    | None =>
        raise (InvalidFetcherAccessPoint
                 ("'float' not available with '" +:+ _src this +:+ "' src"))
    end.

Definition profile (self : loc) (wmo cyc : pyval) : M loc :=
  this ← deref self ;
  match dict_get "profile" (Fetchers this) with
  | Some ctor =>
      l ← construct ctor [("WMO", wmo); ("CYC", cyc)] (fetcher_options this) ;
      assign self (set_fetcher l) ;;
      install_postprocessing self ;;
      mret self
  | None =>
      raise (InvalidFetcherAccessPoint
               ("'profile' not available with '" +:+ _src this +:+ "' src"))
  end.

Definition region (self : loc) (box : pyval) : M loc :=
  this ← deref self ;
  match dict_get "region" (Fetchers this) with
  | Some ctor =>
      l ← construct ctor [("box", box)] (fetcher_options this) ;
      assign self (set_fetcher l) ;;
      install_postprocessing self ;;
      mret self
  | None =>
      raise (InvalidFetcherAccessPoint
               ("'region' not available with '" +:+ _src this +:+ "' src"))
  end.

(** [self.postproccessor(xds)] *)
Definition call_postproccessor (self : loc) (xds : Dataset) : M Dataset :=
  this ← deref self ;
  match postproccessor this with
  | empty_processor => mret xds
  | postprocessing =>
      match fetcher this with
      | None => raise (AttributeError "'NoneType' object has no attribute 'filter_data_mode'")
      | Some l =>
          o ← deref_fetcher l ;
          xds ← lift (filter_data_mode o xds) ;
          o ← deref_fetcher l ;
          xds ← lift (filter_qc o xds) ;
          o ← deref_fetcher l ;
          lift (filter_variables o xds (_mode this))
      end
  end.

Definition to_xarray (self : loc) (kw : kwargs) : M Dataset :=
  this ← deref self ;
  match fetcher this with
  | None =>
      raise (InvalidFetcher (" Initialize an access point ("
               +:+ join "," (keys (Fetchers this)) +:+ ") first."))
  | Some l =>
      o ← deref_fetcher l ;
      xds ← lift (fetch_to_xarray o kw) ;
      call_postproccessor self xds
  end.

Definition to_dataframe (self : loc) (kw : kwargs) : M Frame :=
  xds ← to_xarray self kw ;
  lift (Dataset_to_dataframe env xds).

(** *** Calls and reachable stores *)

(** A client drives the store through the constructor and the methods
    of the class. *)
Inductive call :=
| Call_init (mode src : string) (ds : option string) (fetcher_kwargs : kwargs)
| Call_getattr (limit : nat) (defined : list string) (self : loc) (key : string)
| Call_float (self : loc) (wmo : pyval) (kw : kwargs)
| Call_profile (self : loc) (wmo cyc : pyval)
| Call_region (self : loc) (box : pyval)
| Call_to_xarray (self : loc) (kw : kwargs)
| Call_to_dataframe (self : loc) (kw : kwargs).

(** The store a call leaves behind, whether it returns or raises. *)
Definition run (c : call) (w : world) : world :=
  match c with
  | Call_init mode src ds kw => (__init__ mode src ds kw w).2
  | Call_getattr limit defined self key => (getattr limit defined self key w).2
  | Call_float self wmo kw => (float self wmo kw w).2
  | Call_profile self wmo cyc => (profile self wmo cyc w).2
  | Call_region self box => (region self box w).2
  | Call_to_xarray self kw => (to_xarray self kw w).2
  | Call_to_dataframe self kw => (to_dataframe self kw w).2
  end.

Inductive reachable : world → Prop :=
| reachable_empty : reachable empty_world
| reachable_run w c : reachable w → reachable (run c w).

(** What holds of every facade in a reachable store. *)
Definition facade_ok (w : world) (f : facade) : Prop :=
  (∃ B, AVAILABLE_SOURCES env !! _src f = Some B ∧ Fetchers f = discover B)
  ∧ valid_access_points f = ["profile"; "float"; "region"]
  ∧ match fetcher f with
    | None => postproccessor f = empty_processor
    | Some l =>
        l < length (fetchers w)
        ∧ (postproccessor f = postprocessing ↔ standard_applies f = true)
    end.

Definition world_ok (w : world) : Prop :=
  ∀ l f, facades w !! l = Some f → facade_ok w f.

(** The shape the three access points share: look the constructor up
    under the access point's name, call it, bind the instance, install
    the chain. *)
Definition access_point (name : string) (explicit : kwargs) (self : loc)
  : M loc :=
  this ← deref self ;
  match dict_get name (Fetchers this) with
  | Some ctor =>
      l ← construct ctor explicit (fetcher_options this) ;
      assign self (set_fetcher l) ;;
      install_postprocessing self ;;
      mret self
  | None =>
      raise (InvalidFetcherAccessPoint
               ("'" +:+ name +:+ "' not available with '" +:+ _src this +:+ "' src"))
  end.

(** Any one of the three access-point calls. *)
Inductive selection :=
| Select_float (wmo : pyval) (kw : kwargs)
| Select_profile (wmo cyc : pyval)
| Select_region (box : pyval).

Definition select (a : selection) (self : loc) : M loc :=
  match a with
  | Select_float wmo kw => float self wmo kw
  | Select_profile wmo cyc => profile self wmo cyc
  | Select_region box => region self box
  end.

Definition selection_name (a : selection) : string :=
  match a with
  | Select_float _ _ => "float"
  | Select_profile _ _ => "profile"
  | Select_region _ => "region"
  end.

(** The facade an access point leaves at [self] when the constructor
    returned the instance at [l]. *)
Definition bound_to (l : loc) (f : facade) : facade :=
  let f := set_fetcher l f in
  if standard_applies f then set_postproccessor postprocessing f else f.

(** The three-step chain of [postprocessing], on the fetcher [o]. *)
Definition filter_chain (o : fetcher_obj) (mode : string) (xds : Dataset)
  : res Dataset :=
  xds ← filter_data_mode o xds ;
  xds ← filter_qc o xds ;
  filter_variables o xds mode.

(** [to_dataframe] as the documentation describes it: the bound
    fetcher retrieves, the chain of the standard mode filters, the
    dataset is converted to a frame. *)
Definition to_dataframe_spec (f : facade) (o : fetcher_obj) (kw : kwargs)
  : res Frame :=
  xds ← fetch_to_xarray o kw ;
  xds ← (if standard_applies f then filter_chain o (_mode f) xds
         else Ok xds) ;
  Dataset_to_dataframe env xds.

(** The keywords an access point writes out in its constructor call, ahead
    of the unpacked [fetcher_options]. *)
Definition selection_keywords (a : selection) : kwargs :=
  match a with
  | Select_float wmo _ => [("WMO", wmo)]
  | Select_profile wmo cyc => [("WMO", wmo); ("CYC", cyc)]
  | Select_region box => [("box", box)]
  end.

(** [__repr__]; [fetcher_repr] is the [__repr__] of the backend fetcher
    instances. *)
Definition __repr__ (fetcher_repr : fetcher_obj → res string) (self : loc)
  : M string :=
  this ← deref self ;
  match fetcher this with
  | Some l =>
      o ← deref_fetcher l ;
      r ← lift (fetcher_repr o) ;
      let summary := [r] in
      let summary := summary ++ ["Backend: " +:+ _src this] in
      let summary := summary ++ ["User mode: " +:+ _mode this] in
      mret (join newline summary)
  | None =>
      let summary := ["<datafetcher 'Not initialised'>"] in
      let summary := summary ++ ["Backend: " +:+ _src this] in
      let summary :=
        summary ++ ["Fetchers: " +:+ join ", " (keys (Fetchers this))] in
      let summary := summary ++ ["User mode: " +:+ _mode this] in
      mret (join newline summary)
  end.
End Methods.
End ArgoDataFetcher.

(** ** class ArgoIndexFetcher *)

Module ArgoIndexFetcher.

Record t (Dataset Frame : Type) := {
  _mode : string;
  _src : string;
  valid_access_points : list string;
  Fetchers : dict (kwargs → res (IndexFetcherObj Dataset Frame));
  fetcher : option loc;
  fetcher_options : kwargs;
  postproccessor : processor;
}.
Arguments _mode {Dataset Frame}.
Arguments _src {Dataset Frame}.
Arguments valid_access_points {Dataset Frame}.
Arguments Fetchers {Dataset Frame}.
Arguments fetcher {Dataset Frame}.
Arguments fetcher_options {Dataset Frame}.
Arguments postproccessor {Dataset Frame}.

Definition set_fetcher {Dataset Frame} (l : loc) (f : t Dataset Frame)
  : t Dataset Frame :=
  {| _mode := _mode f; _src := _src f;
     valid_access_points := valid_access_points f; Fetchers := Fetchers f;
     fetcher := Some l;
     fetcher_options := fetcher_options f;
     postproccessor := postproccessor f |}.

Definition class_attrs : list string :=
  ["__init__"; "__repr__"; "_ArgoIndexFetcher__empty_processor";
   "__getattr__"; "float"; "region"; "to_dataframe"; "to_xarray";
   "to_csv"; "plot"].
Definition instance_attrs : list string :=
  ["_mode"; "_src"; "valid_access_points"; "Fetchers"; "fetcher";
   "fetcher_options"; "postproccessor"].

Section Methods.
Context {Dataset Frame Figure : Type}.
Context (env : Env Dataset Frame Figure).

Abbreviation facade := (t Dataset Frame).
Abbreviation fetcher_obj := (IndexFetcherObj Dataset Frame).
Abbreviation world := (World facade fetcher_obj Frame).
Abbreviation M := (@M facade fetcher_obj Frame).

Definition discover (B : Backend Dataset Frame)
  : dict (kwargs → res fetcher_obj) :=
  foldl (λ d p,
           let d :=
             if decide (p = "wmo")
             then dict_set "float" (IndexFetcher_wmo B) d
             else d in
           if decide (p = "box")
           then dict_set "region" (IndexFetcher_box B) d
           else d)
        [] (access_points B).

Definition __init__ (mode src : string) (fetcher_kwargs : kwargs)
  : M loc :=
  let mode' := if decide (mode = "") then OPTIONS env "mode" else mode in
  let src' := if decide (src = "") then OPTIONS env "src" else src in
  lift (_VALIDATORS env "mode" (PyStr mode')) ;;
  lift (_VALIDATORS env "src" (PyStr src')) ;;
  match AVAILABLE_SOURCES env !! src' with
  | None => raise (ValueError ("Fetcher '" +:+ src' +:+ "' not available"))
  | Some B =>
      new_facade
        {| _mode := mode'; _src := src';
           valid_access_points := ["float"; "region"];
           Fetchers := discover B;
           fetcher := None;
           fetcher_options := dict_merge [] fetcher_kwargs;
           postproccessor := empty_processor |}
  end.

(** [__getattr__] and the attribute access, as on the data facade. *)
Definition __getattr__ (self_attr : string → M attr) (self : loc)
    (key : string) : M pyval :=
  let valid_attrs :=
    ["Fetchers"; "fetcher"; "fetcher_options"; "postproccessor"] in
  access_points ← self_attr "valid_access_points" ;
  match access_points with
  | Defined _ =>
      this ← deref self ;
      if bool_decide (key ∉ valid_access_points this)
         && bool_decide (key ∉ valid_attrs)
      then raise (InvalidFetcherAccessPoint
                    ("'" +:+ key +:+ "' is not a valid access point"))
      else mret PyNone
  | Fallback _ =>
      raise (TypeError "argument of type 'NoneType' is not iterable")
  end.

Fixpoint getattr (limit : nat) (defined : list string) (self : loc)
    (key : string) : M attr :=
  if bool_decide (key ∈ defined) then mret (Defined key)
  else
    let self_attr :=
      match limit with
      | S limit => getattr limit defined self
      | 0 => λ name,
          if bool_decide (name ∈ defined) then mret (Defined name)
          else raise (RecursionError "maximum recursion depth exceeded")
      end in
    v ← __getattr__ self_attr self key ; mret (Fallback v).

Definition float (self : loc) (wmo : pyval) : M loc :=
  this ← deref self ;
  match dict_get "float" (Fetchers this) with
  | Some ctor =>
      l ← construct ctor [("WMO", wmo)] (fetcher_options this) ;
      assign self (set_fetcher l) ;;
      mret self
  | None =>
      raise (InvalidFetcherAccessPoint
               ("'float' not available with '" +:+ _src this +:+ "' src"))
  end.

Definition region (self : loc) (box : pyval) : M loc :=
  this ← deref self ;
  match dict_get "region" (Fetchers this) with
  | Some ctor =>
      l ← construct ctor [("box", box)] (fetcher_options this) ;
      assign self (set_fetcher l) ;;
      mret self
  | None =>
      raise (InvalidFetcherAccessPoint
               ("'region' not available with '" +:+ _src this +:+ "' src"))
  end.

Definition not_initialised (this : facade) : exn :=
  InvalidFetcher (" Initialize an access point ("
    +:+ join "," (keys (Fetchers this)) +:+ ") first.").

Definition to_dataframe (self : loc) (kw : kwargs) : M Frame :=
  this ← deref self ;
  match fetcher this with
  | None => raise (not_initialised this)
  | Some l => o ← deref_fetcher l ; lift (index_to_dataframe o kw)
  end.

Definition to_xarray (self : loc) (kw : kwargs) : M Dataset :=
  this ← deref self ;
  match fetcher this with
  | None => raise (not_initialised this)
  | Some l => o ← deref_fetcher l ; lift (index_to_xarray o kw)
  end.

(** [to_csv(file='output_file.csv')]; [None] is the argument left out. *)
Definition to_csv (self : loc) (file : option string) : M pyval :=
  let file := default "output_file.csv" file in
  this ← deref self ;
  match fetcher this with
  | None => raise (not_initialised this)
  | Some _ =>
      df ← to_dataframe self [] ;
      lift (Frame_to_csv env df file)
  end.

(** A plotter call, recorded in the trace. *)
Definition call_plotter (name : string) (plotter : Frame → res Figure)
    (arg : Frame) : M Figure :=
  emit (EvPlot name arg) ;;
  lift (plotter arg).

(** [plot(ptype='trajectory')]; [None] is the argument left out. *)
Definition plot (self : loc) (ptype : option string) : M Figure :=
  let ptype := default "trajectory" ptype in
  idx ← to_dataframe self [] ;
  if decide (ptype = "dac")
  then call_plotter "plot_dac" (plot_dac env) idx
  else if decide (ptype = "profiler")
  then call_plotter "plot_profilerType" (plot_profilerType env) idx
  else if decide (ptype = "trajectory")
  then sorted ← lift (Frame_sort_values env idx ["file"]) ;
       call_plotter "plot_trajectory" (plot_trajectory env) sorted
  else raise (ValueError "Type of plot unavailable. Use: 'dac', 'profiler' or 'trajectory' (default)").

(** *** Calls and reachable stores *)

Inductive call :=
| Call_init (mode src : string) (fetcher_kwargs : kwargs)
| Call_getattr (limit : nat) (defined : list string) (self : loc) (key : string)
| Call_float (self : loc) (wmo : pyval)
| Call_region (self : loc) (box : pyval)
| Call_to_dataframe (self : loc) (kw : kwargs)
| Call_to_xarray (self : loc) (kw : kwargs)
| Call_to_csv (self : loc) (file : option string)
| Call_plot (self : loc) (ptype : option string).

Definition run (c : call) (w : world) : world :=
  match c with
  | Call_init mode src kw => (__init__ mode src kw w).2
  | Call_getattr limit defined self key => (getattr limit defined self key w).2
  | Call_float self wmo => (float self wmo w).2
  | Call_region self box => (region self box w).2
  | Call_to_dataframe self kw => (to_dataframe self kw w).2
  | Call_to_xarray self kw => (to_xarray self kw w).2
  | Call_to_csv self file => (to_csv self file w).2
  | Call_plot self ptype => (plot self ptype w).2
  end.

Inductive reachable : world → Prop :=
| reachable_empty : reachable empty_world
| reachable_run w c : reachable w → reachable (run c w).

(** The shape the two access points share. *)
Definition access_point (name : string) (explicit : kwargs) (self : loc)
  : M loc :=
  this ← deref self ;
  match dict_get name (Fetchers this) with
  | Some ctor =>
      l ← construct ctor explicit (fetcher_options this) ;
      assign self (set_fetcher l) ;;
      mret self
  | None =>
      raise (InvalidFetcherAccessPoint
               ("'" +:+ name +:+ "' not available with '" +:+ _src this +:+ "' src"))
  end.

(** Any one of the two access-point calls. *)
Inductive selection :=
| Select_float (wmo : pyval)
| Select_region (box : pyval).

Definition select (a : selection) (self : loc) : M loc :=
  match a with
  | Select_float wmo => float self wmo
  | Select_region box => region self box
  end.

Definition selection_name (a : selection) : string :=
  match a with
  | Select_float _ => "float"
  | Select_region _ => "region"
  end.

Definition facade_ok (w : world) (f : facade) : Prop :=
  (∃ B, AVAILABLE_SOURCES env !! _src f = Some B ∧ Fetchers f = discover B)
  ∧ valid_access_points f = ["float"; "region"]
  ∧ match fetcher f with
    | None => True
    | Some l => l < length (fetchers w)
    end.

Definition world_ok (w : world) : Prop :=
  ∀ l f, facades w !! l = Some f → facade_ok w f.

Definition selection_keywords (a : selection) : kwargs :=
  match a with
  | Select_float wmo => [("WMO", wmo)]
  | Select_region box => [("box", box)]
  end.

(** [__repr__]; [fetcher_repr] is the [__repr__] of the backend fetcher
    instances. *)
Definition __repr__ (fetcher_repr : fetcher_obj → res string) (self : loc)
  : M string :=
  this ← deref self ;
  match fetcher this with
  | Some l =>
      o ← deref_fetcher l ;
      r ← lift (fetcher_repr o) ;
      let summary := [r] in
      let summary := summary ++ ["User mode: " +:+ _mode this] in
      mret (join newline summary)
  | None =>
      let summary := ["<indexfetcher 'Not initialised'>"] in
      let summary := summary ++ ["Fetchers: 'float' or 'region'"] in
      let summary := summary ++ ["User mode: " +:+ _mode this] in
      mret (join newline summary)
  end.
End Methods.
End ArgoIndexFetcher.

(** ** A stub environment

    Datasets and frames are lists of markers: a stub fetcher tags what it
    retrieves and every stub filter appends its name, so the order of the
    markers is the order of the calls. *)

Definition stub_data_fetcher (kw : kwargs) : res (DataFetcherObj (list string)) :=
  Ok {| fetch_to_xarray := λ _, Ok ["raw"];
        filter_data_mode := λ xds, Ok (xds ++ ["data_mode"]);
        filter_qc := λ xds, Ok (xds ++ ["qc"]);
        filter_variables := λ xds mode, Ok (xds ++ ["variables:" +:+ mode]) |}.

Definition stub_index_fetcher (kw : kwargs)
  : res (IndexFetcherObj (list string) (list string)) :=
  Ok {| index_to_dataframe := λ _, Ok ["index"];
        index_to_xarray := λ _, Ok ["index"] |}.

Definition stub_backend (capabilities : list string)
  : Backend (list string) (list string) :=
  {| access_points := capabilities;
     dataset_ids := ["phy"; "ref"; "bgc"];
     Fetch_wmo := stub_data_fetcher;
     Fetch_box := stub_data_fetcher;
     IndexFetcher_wmo := stub_index_fetcher;
     IndexFetcher_box := stub_index_fetcher |}.

Definition stub_sources : gmap string (Backend (list string) (list string)) :=
  <["erddap" := stub_backend ["wmo"; "box"]]>
    (<["localftp" := stub_backend ["wmo"]]>
       (<["gridded" := stub_backend ["box"]]> ∅)).

(** The validators of the stub check the fixed vocabularies and raise on
    anything else. *)
Definition stub_validators (option_name : string) (v : pyval) : res unit :=
  let vocabulary :=
    if decide (option_name = "mode") then ["standard"; "expert"]
    else if decide (option_name = "src") then ["erddap"; "localftp"; "gridded"]
    else if decide (option_name = "dataset") then ["phy"; "bgc"; "ref"]
    else [] in
  match v with
  | PyStr s =>
      if bool_decide (s ∈ vocabulary) then Ok ()
      else Raise (ValueError ("invalid value for option " +:+ option_name))
  | _ => Raise (ValueError ("invalid value for option " +:+ option_name))
  end.

Definition stub_options (option_name : string) : string :=
  if decide (option_name = "mode") then "standard"
  else if decide (option_name = "src") then "erddap"
  else if decide (option_name = "dataset") then "phy"
  else "".

Definition stub_env : Env (list string) (list string) string :=
  {| OPTIONS := stub_options;
     _VALIDATORS := stub_validators;
     AVAILABLE_SOURCES := stub_sources;
     plot_trajectory := λ df, Ok (String.concat "," ("trajectory" :: df));
     plot_dac := λ df, Ok (String.concat "," ("dac" :: df));
     plot_profilerType := λ df, Ok (String.concat "," ("profiler" :: df));
     Dataset_to_dataframe := λ xds, Ok (xds ++ ["frame"]);
     Frame_sort_values := λ df by_, Ok (df ++ ("sorted" :: by_));
     Frame_to_csv := λ df file, Ok PyNone |}.

(** Stores of the stub environment, named for the examples below. *)

(** [ArgoDataFetcher()]: every argument left out. *)
Definition data_fresh :=
  ArgoDataFetcher.run stub_env
    (ArgoDataFetcher.Call_init "" "" (Some "") []) empty_world.

(** [ArgoDataFetcher().float(6902746)] *)
Definition data_bound :=
  ArgoDataFetcher.run stub_env
    (ArgoDataFetcher.Call_float 0 (PyInt 6902746) []) data_fresh.

(** [ArgoDataFetcher(mode='expert').float(6902746)] *)
Definition data_expert_bound :=
  ArgoDataFetcher.run stub_env
    (ArgoDataFetcher.Call_float 0 (PyInt 6902746) [])
    (ArgoDataFetcher.run stub_env
       (ArgoDataFetcher.Call_init "expert" "" (Some "") []) empty_world).

(** [ArgoDataFetcher(src='gridded')]: a backend without ['wmo']. *)
Definition data_gridded :=
  ArgoDataFetcher.run stub_env
    (ArgoDataFetcher.Call_init "" "gridded" (Some "") []) empty_world.

(** [ArgoIndexFetcher()] *)
Definition index_fresh :=
  ArgoIndexFetcher.run stub_env
    (ArgoIndexFetcher.Call_init "" "" []) empty_world.

(** [ArgoIndexFetcher().float(6902746)] *)
Definition index_bound :=
  ArgoIndexFetcher.run stub_env
    (ArgoIndexFetcher.Call_float 0 (PyInt 6902746)) index_fresh.

(** A data fetcher whose retrieval fails. *)
Definition failing_data_fetcher (kw : kwargs)
  : res (DataFetcherObj (list string)) :=
  Ok {| fetch_to_xarray := λ _, Raise (CollaboratorError "server unreachable");
        filter_data_mode := λ xds, Ok (xds ++ ["data_mode"]);
        filter_qc := λ xds, Ok (xds ++ ["qc"]);
        filter_variables := λ xds mode, Ok (xds ++ ["variables:" +:+ mode]) |}.

(** The stub environment with validators that accept everything, as
    validators that only answer whether a value is in the vocabulary do. *)
Definition lenient_env : Env (list string) (list string) string :=
  {| OPTIONS := stub_options;
     _VALIDATORS := λ _ _, Ok ();
     AVAILABLE_SOURCES :=
       <["nodataset" :=
           {| access_points := ["wmo"; "wmo"; "argovis"; "box"; "wmo"];
              dataset_ids := [];
              Fetch_wmo := stub_data_fetcher;
              Fetch_box := stub_data_fetcher;
              IndexFetcher_wmo := stub_index_fetcher;
              IndexFetcher_box := stub_index_fetcher |}]>
         (<["offline" :=
              {| access_points := ["wmo"];
                 dataset_ids := ["phy"];
                 Fetch_wmo := failing_data_fetcher;
                 Fetch_box := failing_data_fetcher;
                 IndexFetcher_wmo := stub_index_fetcher;
                 IndexFetcher_box := stub_index_fetcher |}]> stub_sources);
     plot_trajectory := plot_trajectory stub_env;
     plot_dac := plot_dac stub_env;
     plot_profilerType := plot_profilerType stub_env;
     Dataset_to_dataframe := Dataset_to_dataframe stub_env;
     Frame_sort_values := Frame_sort_values stub_env;
     Frame_to_csv := Frame_to_csv stub_env |}.

(** The [__repr__] of the stub fetchers. *)
Definition stub_data_repr (o : DataFetcherObj (list string)) : res string :=
  Ok "<datafetcher 'stub'>".
Definition stub_index_repr
  (o : IndexFetcherObj (list string) (list string)) : res string :=
  Ok "<indexfetcher 'stub'>".

(** [ArgoIndexFetcher(src='gridded')] and [ArgoIndexFetcher(src='localftp')] *)
Definition index_gridded :=
  ArgoIndexFetcher.run stub_env
    (ArgoIndexFetcher.Call_init "" "gridded" []) empty_world.
Definition index_localftp :=
  ArgoIndexFetcher.run stub_env
    (ArgoIndexFetcher.Call_init "" "localftp" []) empty_world.

(** [ArgoDataFetcher(src='offline').float(6902746)] with lenient validators *)
Definition data_offline_bound :=
  ArgoDataFetcher.run lenient_env
    (ArgoDataFetcher.Call_float 0 (PyInt 6902746) [])
    (ArgoDataFetcher.run lenient_env
       (ArgoDataFetcher.Call_init "" "offline" (Some "") []) empty_world).

(** [ArgoDataFetcher(WMO=1)]: a backend option named like a keyword of the
    access points. *)
Definition data_wmo_option :=
  ArgoDataFetcher.run stub_env
    (ArgoDataFetcher.Call_init "" "" (Some "") [("WMO", PyInt 1)]) empty_world.

(** * Properties *)

(** ** Dictionaries *)

Section DictFacts.
Context {V : Type}.
Implicit Types (d : dict V) (k : string) (v : V).

Lemma dict_get_set d k k' v :
  dict_get k (dict_set k' v d)
  = if decide (k = k') then Some v else dict_get k d.
Proof.
  induction d as [|[k0 v0] d IH]; simpl.
  - by repeat case_decide.
  - repeat (case_decide; simpl; subst); try done.
Qed.

Lemma dict_in_set d k k' v :
  dict_in k (dict_set k' v d) = bool_decide (k = k') || dict_in k d.
Proof.
  unfold dict_in. rewrite dict_get_set.
  case_decide; subst.
  - rewrite bool_decide_eq_true_2 by eauto. by rewrite bool_decide_eq_true_2.
  - by rewrite (bool_decide_eq_false_2 (k = k')).
Qed.

Lemma dict_in_nil k : dict_in k ([] : dict V) = false.
Proof. reflexivity. Qed.

Lemma dict_in_keys d k : dict_in k d = true ↔ k ∈ keys d.
Proof.
  unfold dict_in, keys. rewrite bool_decide_eq_true.
  induction d as [|[k0 v0] d IH]; simpl.
  - split; [by intros [? ?] | by intros ?%elem_of_nil].
  - rewrite elem_of_cons. case_decide; subst.
    + split; eauto.
    + rewrite IH. split; [by right | by intros [?|?]].
Qed.

End DictFacts.

(** ** The monad *)

Section MonadFacts.
Context {F O Frame : Type}.
Implicit Types (w : World F O Frame).

Lemma deref_Some w self (f : F) :
  facades w !! self = Some f → deref self w = (Ok f, w).
Proof. unfold deref. by intros ->. Qed.

Lemma deref_None w self :
  facades w !! self = None →
  deref (O:=O) (Frame:=Frame) self w
  = (Raise (AttributeError "dangling reference"), w).
Proof. unfold deref. by intros ->. Qed.

End MonadFacts.

(** ** The data facade *)

Section DataFacts.
Import ArgoDataFetcher.
Context {Dataset Frame Figure : Type}.
Context (env : Env Dataset Frame Figure).
Implicit Types (w : World (t Dataset) (DataFetcherObj Dataset) Frame).
Implicit Types (f : t Dataset) (self l : loc).

(** *** Discovery of the access points *)

Lemma data_discover_in (B : Backend Dataset Frame) k :
  dict_in k (discover B)
  = (bool_decide (k = "float") || bool_decide (k = "profile"))
      && bool_decide ("wmo" ∈ access_points B)
    || bool_decide (k = "region") && bool_decide ("box" ∈ access_points B).
Proof.
  unfold discover.
  assert (∀ (aps : list string) d,
    dict_in k (foldl (λ d p,
             let d :=
               if decide (p = "wmo")
               then dict_set "float" (Fetch_wmo B)
                      (dict_set "profile" (Fetch_wmo B) d)
               else d in
             if decide (p = "box")
             then dict_set "region" (Fetch_box B) d
             else d) d aps)
    = dict_in k d
      || (bool_decide (k = "float") || bool_decide (k = "profile"))
           && bool_decide ("wmo" ∈ aps)
      || bool_decide (k = "region") && bool_decide ("box" ∈ aps)) as Hgen.
  { induction aps as [|p aps IH]; intros d; simpl.
    - rewrite !andb_false_r, !orb_false_r. done.
    - rewrite IH. clear IH.
      destruct (decide (p = "wmo")) as [Hw|Hw],
        (decide (p = "box")) as [Hb|Hb];
        subst; try discriminate; simpl; rewrite ?dict_in_set.
      + rewrite (bool_decide_ext ("box" ∈ "wmo" :: aps) ("box" ∈ aps))
          by (rewrite elem_of_cons; split; [intros [?|?]; [congruence|done] | by right]).
        destruct (bool_decide (k = "float")), (bool_decide (k = "profile")),
          (bool_decide (k = "region")), (dict_in k d),
          (bool_decide ("wmo" ∈ aps)), (bool_decide ("box" ∈ aps)); done.
      + rewrite (bool_decide_ext ("wmo" ∈ "box" :: aps) ("wmo" ∈ aps))
          by (rewrite elem_of_cons; split; [intros [?|?]; [congruence|done] | by right]).
        destruct (bool_decide (k = "float")), (bool_decide (k = "profile")),
          (bool_decide (k = "region")), (dict_in k d),
          (bool_decide ("wmo" ∈ aps)), (bool_decide ("box" ∈ aps)); done.
      + rewrite (bool_decide_ext ("wmo" ∈ p :: aps) ("wmo" ∈ aps))
          by (rewrite elem_of_cons; split; [intros [?|?]; [congruence|done] | by right]).
        rewrite (bool_decide_ext ("box" ∈ p :: aps) ("box" ∈ aps))
          by (rewrite elem_of_cons; split; [intros [?|?]; [congruence|done] | by right]).
        done. }
  rewrite Hgen, dict_in_nil. done.
Qed.

Lemma data_discover_get (B : Backend Dataset Frame) k :
  dict_get k (discover B)
  = if bool_decide (k = "float" ∨ k = "profile")
       && bool_decide ("wmo" ∈ access_points B)
    then Some (Fetch_wmo B)
    else if bool_decide (k = "region")
            && bool_decide ("box" ∈ access_points B)
    then Some (Fetch_box B)
    else None.
Proof.
  unfold discover.
  assert (∀ (aps : list string) d,
    dict_get k (foldl (λ d p,
             let d :=
               if decide (p = "wmo")
               then dict_set "float" (Fetch_wmo B)
                      (dict_set "profile" (Fetch_wmo B) d)
               else d in
             if decide (p = "box")
             then dict_set "region" (Fetch_box B) d
             else d) d aps)
    = if bool_decide (k = "float" ∨ k = "profile")
         && bool_decide ("wmo" ∈ aps)
      then Some (Fetch_wmo B)
      else if bool_decide (k = "region") && bool_decide ("box" ∈ aps)
      then Some (Fetch_box B)
      else dict_get k d) as Hgen.
  { induction aps as [|p aps IH]; intros d; simpl.
    - by rewrite !andb_false_r.
    - rewrite IH. clear IH.
      destruct (decide (p = "wmo")) as [Hw|Hw],
        (decide (p = "box")) as [Hb|Hb];
        subst; try discriminate; simpl; rewrite ?dict_get_set.
      + rewrite (bool_decide_ext ("box" ∈ "wmo" :: aps) ("box" ∈ aps))
          by (rewrite elem_of_cons; split; [intros [?|?]; [congruence|done] | by right]).
        rewrite andb_true_r.
        destruct (bool_decide ("wmo" ∈ aps)), (bool_decide ("box" ∈ aps));
          rewrite ?andb_true_r, ?andb_false_r;
          repeat case_bool_decide; repeat case_decide; subst;
          try done; try discriminate; exfalso; intuition congruence.
      + rewrite (bool_decide_ext ("wmo" ∈ "box" :: aps) ("wmo" ∈ aps))
          by (rewrite elem_of_cons; split; [intros [?|?]; [congruence|done] | by right]).
        rewrite (andb_true_r (bool_decide (k = "region"))).
        destruct (bool_decide ("wmo" ∈ aps)), (bool_decide ("box" ∈ aps));
          rewrite ?andb_true_r, ?andb_false_r;
          repeat case_bool_decide; repeat case_decide; subst;
          try done; try discriminate; exfalso; intuition congruence.
      + rewrite (bool_decide_ext ("wmo" ∈ p :: aps) ("wmo" ∈ aps))
          by (rewrite elem_of_cons; split; [intros [?|?]; [congruence|done] | by right]).
        rewrite (bool_decide_ext ("box" ∈ p :: aps) ("box" ∈ aps))
          by (rewrite elem_of_cons; split; [intros [?|?]; [congruence|done] | by right]).
        done. }
  by rewrite Hgen.
Qed.

Lemma data_discover_keys (B : Backend Dataset Frame) k :
  k ∈ keys (discover B)
  ↔ (k = "float" ∨ k = "profile") ∧ "wmo" ∈ access_points B
    ∨ k = "region" ∧ "box" ∈ access_points B.
Proof.
  rewrite <- dict_in_keys, data_discover_in.
  rewrite orb_true_iff, !andb_true_iff, orb_true_iff, !bool_decide_eq_true.
  done.
Qed.

(** *** The access points *)

Lemma data_float_unfold self wmo kw w :
  float self wmo kw w
  = if dict_in "CYC" kw || dict_in "cyc" kw
    then (Raise (TypeError "float() got an unexpected keyword argument 'cyc'. Use 'profile' access point to fetch specific profile data."), w)
    else access_point "float" [("WMO", wmo)] self w.
Proof. unfold float. by destruct (dict_in "CYC" kw || dict_in "cyc" kw). Qed.

Lemma data_float_cycle_keyword self wmo kw w :
  dict_in "CYC" kw = true ∨ dict_in "cyc" kw = true →
  float self wmo kw w
  = (Raise (TypeError "float() got an unexpected keyword argument 'cyc'. Use 'profile' access point to fetch specific profile data."), w).
Proof.
  intros Hkw. rewrite data_float_unfold.
  by destruct Hkw as [-> | ->]; rewrite ?orb_true_r.
Qed.

Lemma data_profile_unfold self wmo cyc w :
  profile self wmo cyc w
  = access_point "profile" [("WMO", wmo); ("CYC", cyc)] self w.
Proof. reflexivity. Qed.

Lemma data_region_unfold self box w :
  region self box w = access_point "region" [("box", box)] self w.
Proof. reflexivity. Qed.

(** What an access point does, case by case. *)
Lemma data_access_point_run name explicit self w f :
  facades w !! self = Some f →
  access_point name explicit self w =
    match dict_get name (Fetchers f) with
    | None =>
        (Raise (InvalidFetcherAccessPoint
                  ("'" +:+ name +:+ "' not available with '" +:+ _src f +:+ "' src")), w)
    | Some ctor =>
        match find (λ k, dict_in k (fetcher_options f)) (keys explicit) with
        | Some k =>
            (Raise (TypeError ("got multiple values for keyword argument '" +:+ k +:+ "'")), w)
        | None =>
            let kw := explicit ++ fetcher_options f in
            let tr := trace w ++ [EvConstruct kw] in
            match ctor kw with
            | Raise e => (Raise e, mkWorld (facades w) (fetchers w) tr)
            | Ok o =>
                (Ok self,
                 mkWorld (<[self := bound_to (length (fetchers w)) f]> (facades w))
                         (fetchers w ++ [o]) tr)
            end
        end
    end.
Proof.
  intros Hf. pose proof (lookup_lt_Some _ _ _ Hf) as Hlt.
  unfold access_point, mbind, M_bind. rewrite (deref_Some _ _ _ Hf).
  destruct (dict_get name (Fetchers f)) as [ctor|]; [|done].
  unfold construct.
  destruct (find _ (keys explicit)) as [k|]; [done|].
  unfold mbind, M_bind, emit, lift, new_fetcher, assign; simpl.
  destruct (ctor _) as [o|e]; [|done]. simpl.
  rewrite Hf. unfold install_postprocessing, mbind, M_bind, deref, assign. simpl.
  rewrite list_lookup_insert_eq by done.
  unfold bound_to. simpl.
  change (standard_applies (set_fetcher (length (fetchers w)) f))
    with (standard_applies f).
  destruct (standard_applies f); simpl.
  - rewrite list_lookup_insert_eq by done.
    by rewrite list_insert_insert_eq.
  - done.
Qed.

Lemma data_access_point_dangling name explicit self w :
  facades w !! self = None →
  access_point name explicit self w
  = (Raise (AttributeError "dangling reference"), w).
Proof.
  intros Hf. unfold access_point, mbind, M_bind. by rewrite (deref_None _ _ Hf).
Qed.
(** *** Terminal retrieval *)

Lemma data_call_postproccessor_run self xds w f :
  facades w !! self = Some f →
  call_postproccessor self xds w =
    match postproccessor f with
    | empty_processor => (Ok xds, w)
    | postprocessing =>
        match fetcher f with
        | None => (Raise (AttributeError "'NoneType' object has no attribute 'filter_data_mode'"), w)
        | Some l =>
            match fetchers w !! l with
            | None => (Raise (AttributeError "dangling reference"), w)
            | Some o => (filter_chain o (_mode f) xds, w)
            end
        end
    end.
Proof.
  intros Hf. unfold call_postproccessor, mbind, M_bind.
  rewrite (deref_Some _ _ _ Hf).
  destruct (postproccessor f); [done|].
  destruct (fetcher f) as [l|]; [|done].
  unfold deref_fetcher, lift, filter_chain, mbind, res_bind.
  destruct (fetchers w !! l) as [o|] eqn:Ho; [|done].
  destruct (filter_data_mode o xds) as [x1|]; [|done].
  rewrite Ho. destruct (filter_qc o x1) as [x2|]; [|done].
  by rewrite Ho.
Qed.

Lemma data_to_xarray_run self kw w f :
  facades w !! self = Some f →
  to_xarray self kw w =
    match fetcher f with
    | None =>
        (Raise (InvalidFetcher (" Initialize an access point ("
                  +:+ join "," (keys (Fetchers f)) +:+ ") first.")), w)
    | Some l =>
        match fetchers w !! l with
        | None => (Raise (AttributeError "dangling reference"), w)
        | Some o =>
            (xds ← fetch_to_xarray o kw ;
             match postproccessor f with
             | empty_processor => Ok xds
             | postprocessing => filter_chain o (_mode f) xds
             end, w)
        end
    end.
Proof.
  intros Hf. unfold to_xarray, mbind at 1, M_bind.
  rewrite (deref_Some _ _ _ Hf).
  destruct (fetcher f) as [l|] eqn:Hl; [|done].
  unfold mbind at 1, M_bind, deref_fetcher.
  destruct (fetchers w !! l) as [o|] eqn:Ho; [|done].
  unfold mbind at 1, M_bind, lift.
  destruct (fetch_to_xarray o kw) as [xds|]; [|done].
  rewrite (data_call_postproccessor_run _ _ _ _ Hf), Hl, Ho.
  by destruct (postproccessor f).
Qed.

Lemma data_to_xarray_dangling self kw w :
  facades w !! self = None →
  to_xarray self kw w = (Raise (AttributeError "dangling reference"), w).
Proof.
  intros Hf. unfold to_xarray, mbind, M_bind. by rewrite (deref_None _ _ Hf).
Qed.

Lemma data_to_xarray_world self kw w : (to_xarray self kw w).2 = w.
Proof.
  destruct (facades w !! self) as [f|] eqn:Hf.
  - rewrite (data_to_xarray_run _ _ _ _ Hf).
    destruct (fetcher f) as [l|]; [|done].
    by destruct (fetchers w !! l).
  - by rewrite data_to_xarray_dangling.
Qed.

Lemma data_to_dataframe_run self kw w :
  to_dataframe env self kw w
  = ((to_xarray self kw w).1 ≫= Dataset_to_dataframe env,
     (to_xarray self kw w).2).
Proof.
  unfold to_dataframe, mbind at 1, M_bind.
  destruct (to_xarray self kw w) as [[xds|e] w']; done.
Qed.

Lemma data_to_dataframe_world self kw w : (to_dataframe env self kw w).2 = w.
Proof. rewrite data_to_dataframe_run. simpl. apply data_to_xarray_world. Qed.

(** *** Attribute access *)

(** A name the normal lookup finds. *)
Lemma data_getattr_defined limit defined self key w :
  key ∈ defined → getattr limit defined self key w = (Ok (Defined key), w).
Proof.
  intros Hdef. destruct limit; cbn [getattr];
    by rewrite (bool_decide_eq_true_2 _ Hdef).
Qed.

(** A name the normal lookup does not find, on an object on which it
    finds [valid_access_points]: [__getattr__] decides. *)
Lemma data_getattr_fallback limit defined self key w :
  "valid_access_points" ∈ defined →
  key ∉ defined →
  getattr limit defined self key w =
    match facades w !! self with
    | Some f =>
        if bool_decide (key ∉ valid_access_points f)
           && bool_decide (key ∉ ["Fetchers"; "fetcher"; "fetcher_options";
                                  "postproccessor"])
        then (Raise (InvalidFetcherAccessPoint
                       ("'" +:+ key +:+ "' is not a valid access point")), w)
        else (Ok (Fallback PyNone), w)
    | None => (Raise (AttributeError "dangling reference"), w)
    end.
Proof.
  intros Hvap Hdef.
  assert (getattr limit defined self key w
          = (v ← __getattr__ (λ name, mret (Defined name)) self key ;
             mret (Fallback v)) w) as ->.
  { destruct limit as [|limit]; cbn [getattr];
      rewrite (bool_decide_eq_false_2 _ Hdef);
      unfold __getattr__, mbind, M_bind.
    - by rewrite (bool_decide_eq_true_2 _ Hvap).
    - by rewrite (data_getattr_defined _ _ _ _ _ Hvap). }
  unfold __getattr__, mbind, M_bind, mret, M_ret, deref.
  destruct (facades w !! self) as [f|]; [|done].
  by destruct (_ && _).
Qed.

(** A name the normal lookup does not find, on an object on which it does
    not find [valid_access_points] either: [__getattr__] calls itself
    until the interpreter stops it. *)
Lemma data_getattr_recursion limit defined self key w :
  "valid_access_points" ∉ defined →
  key ∉ defined →
  getattr limit defined self key w
  = (Raise (RecursionError "maximum recursion depth exceeded"), w).
Proof.
  intros Hvap. revert key.
  induction limit as [|limit IH]; intros key Hdef; cbn [getattr];
    rewrite (bool_decide_eq_false_2 _ Hdef);
    unfold __getattr__, mbind, M_bind.
  - by rewrite (bool_decide_eq_false_2 _ Hvap).
  - by rewrite (IH _ Hvap).
Qed.

Lemma data_getattr_world limit defined self key w :
  (getattr limit defined self key w).2 = w.
Proof.
  destruct (decide (key ∈ defined)) as [Hdef|Hdef].
  { by rewrite data_getattr_defined. }
  destruct (decide ("valid_access_points" ∈ defined)) as [Hvap|Hvap].
  - rewrite data_getattr_fallback by done.
    destruct (facades w !! self) as [f|]; [|done]. by destruct (_ && _).
  - by rewrite data_getattr_recursion.
Qed.

(** *** Construction *)

Lemma data_init_run mode src ds fetcher_kwargs w :
  let mode' := if decide (mode = "") then OPTIONS env "mode" else mode in
  let dataset_id :=
    if decide (ds = Some "") then Some (OPTIONS env "dataset") else ds in
  let src' := if decide (src = "") then OPTIONS env "src" else src in
  (∃ e, __init__ env mode src ds fetcher_kwargs w = (Raise e, w))
  ∨ (∃ B ds' tr,
       AVAILABLE_SOURCES env !! src' = Some B
       ∧ match ds with
         | Some s => ds' = PyStr s
         | None => ∃ d, head (dataset_ids B) = Some d ∧ ds' = PyStr d
         end
       ∧ __init__ env mode src ds fetcher_kwargs w
         = (Ok (length (facades w)),
            mkWorld
              (facades w ++
                 [{| _mode := mode'; _dataset_id := dataset_id; _src := src';
                     valid_access_points := ["profile"; "float"; "region"];
                     Fetchers := discover B;
                     fetcher := None;
                     fetcher_options := dict_merge [("ds", ds')] fetcher_kwargs;
                     postproccessor := empty_processor |}])
              (fetchers w) (trace w ++ tr))).
Proof.
  intros mode' dataset_id src'. unfold __init__.
  fold mode' dataset_id src'.
  unfold mbind at 1, M_bind, lift.
  destruct (_VALIDATORS env "mode" _); [|by left; eexists].
  unfold mbind at 1, M_bind.
  destruct (_VALIDATORS env "src" _); [|by left; eexists].
  unfold mbind at 1, M_bind.
  destruct (_VALIDATORS env "dataset" _); [|by left; eexists].
  destruct (AVAILABLE_SOURCES env !! src') as [B|] eqn:HB; [|by left; eexists].
  destruct ds as [s|].
  - right. exists B, (PyStr s).
    unfold mbind, M_bind, mret, M_ret, new_facade, emit. simpl.
    destruct (_ && _); simpl.
    + eexists. split; [done|]. split; [done|]. done.
    + exists []. split; [done|]. split; [done|]. by rewrite app_nil_r.
  - destruct (dataset_ids B) as [|d ids] eqn:Hids.
    + left. by eexists.
    + right. exists B, (PyStr d).
      unfold mbind, M_bind, mret, M_ret, new_facade, emit. simpl.
      exists []. split; [done|]. split; [exists d; by rewrite ?Hids|]. by rewrite app_nil_r.
Qed.
(** *** Outcomes of an access point *)

(** An access point either raises and leaves every object as it was, or
    returns [self] after binding a new fetcher instance to it. *)
Lemma data_access_point_cases name explicit self w r w' :
  access_point name explicit self w = (r, w') →
  (∃ e, r = Raise e ∧ facades w' = facades w ∧ fetchers w' = fetchers w)
  ∨ (∃ f o ctor,
       r = Ok self
       ∧ facades w !! self = Some f
       ∧ dict_get name (Fetchers f) = Some ctor
       ∧ ctor (explicit ++ fetcher_options f) = Ok o
       ∧ facades w' = <[self := bound_to (length (fetchers w)) f]> (facades w)
       ∧ fetchers w' = fetchers w ++ [o]
       ∧ trace w' = trace w ++ [EvConstruct (explicit ++ fetcher_options f)]).
Proof.
  destruct (facades w !! self) as [f|] eqn:Hf.
  - rewrite (data_access_point_run _ _ _ _ _ Hf).
    destruct (dict_get name (Fetchers f)) as [ctor|] eqn:Hctor.
    + destruct (find _ _) as [k|].
      * intros [= <- <-]. left. by eexists.
      * simpl. destruct (ctor _) as [o|e] eqn:Ho.
        -- intros [= <- <-]. right. exists f, o, ctor. done.
        -- intros [= <- <-]. left. by eexists.
    + intros [= <- <-]. left. by eexists.
  - rewrite (data_access_point_dangling _ _ _ _ Hf).
    intros [= <- <-]. left. by eexists.
Qed.

Lemma data_bound_to_fetcher l f : fetcher (bound_to l f) = Some l.
Proof.
  unfold bound_to.
  by destruct (standard_applies (set_fetcher l f)).
Qed.

Lemma data_bound_to_standard l f :
  standard_applies (bound_to l f) = standard_applies f.
Proof.
  unfold bound_to.
  by destruct (standard_applies (set_fetcher l f)).
Qed.

Lemma data_select_cases a self w r w' :
  select a self w = (r, w') →
  (∃ e, r = Raise e ∧ facades w' = facades w ∧ fetchers w' = fetchers w)
  ∨ (∃ f o explicit,
       r = Ok self
       ∧ facades w !! self = Some f
       ∧ facades w' = <[self := bound_to (length (fetchers w)) f]> (facades w)
       ∧ fetchers w' = fetchers w ++ [o]
       ∧ trace w' = trace w ++ [EvConstruct (explicit ++ fetcher_options f)]).
Proof.
  assert (∀ name explicit,
    access_point name explicit self w = (r, w') →
    (∃ e, r = Raise e ∧ facades w' = facades w ∧ fetchers w' = fetchers w)
    ∨ (∃ f o explicit,
         r = Ok self
         ∧ facades w !! self = Some f
         ∧ facades w' = <[self := bound_to (length (fetchers w)) f]> (facades w)
         ∧ fetchers w' = fetchers w ++ [o]
         ∧ trace w' = trace w ++ [EvConstruct (explicit ++ fetcher_options f)]))
    as Hap.
  { intros name explicit Hrun.
    apply data_access_point_cases in Hrun
      as [?|(f & o & ctor & ? & ? & _ & _ & ? & ? & ?)]; [by left|].
    right. by exists f, o, explicit. }
  destruct a as [wmo kw|wmo cyc|box]; simpl.
  - rewrite data_float_unfold. destruct (_ || _); [|by apply Hap].
    intros [= <- <-]. left. by eexists.
  - rewrite data_profile_unfold. apply Hap.
  - rewrite data_region_unfold. apply Hap.
Qed.

(** An access point the backend does not support. *)
Lemma data_select_unsupported a self w f :
  facades w !! self = Some f →
  dict_get (selection_name a) (Fetchers f) = None →
  ∃ e, select a self w = (Raise e, w).
Proof.
  intros Hf Hname. destruct a as [wmo kw|wmo cyc|box]; simpl in *.
  - rewrite data_float_unfold. destruct (_ || _); [by eexists|].
    rewrite (data_access_point_run _ _ _ _ _ Hf), Hname. by eexists.
  - rewrite data_profile_unfold.
    rewrite (data_access_point_run _ _ _ _ _ Hf), Hname. by eexists.
  - rewrite data_region_unfold.
    rewrite (data_access_point_run _ _ _ _ _ Hf), Hname. by eexists.
Qed.

(** Terminal retrieval reads the objects only. *)
Lemma data_to_xarray_frame self kw w w' :
  facades w' = facades w → fetchers w' = fetchers w →
  (to_xarray self kw w').1 = (to_xarray self kw w).1.
Proof.
  intros Hfac Hfet.
  destruct (facades w !! self) as [f|] eqn:Hf.
  - rewrite (data_to_xarray_run _ _ _ _ Hf).
    rewrite <- Hfac in Hf. rewrite (data_to_xarray_run _ _ _ _ Hf), Hfet.
    destruct (fetcher f) as [l|]; [|done].
    by destruct (fetchers w !! l).
  - rewrite (data_to_xarray_dangling _ _ _ Hf).
    rewrite <- Hfac in Hf. by rewrite (data_to_xarray_dangling _ _ _ Hf).
Qed.

(** *** The invariant of reachable stores *)

Lemma data_facade_ok_mono w w' f :
  length (fetchers w) ≤ length (fetchers w') →
  facade_ok env w f → facade_ok env w' f.
Proof.
  intros Hle (HB & Hvap & Hfetch). split; [done|]. split; [done|].
  destruct (fetcher f) as [l|]; [|done].
  destruct Hfetch as [Hlt Hpp]. split; [lia|done].
Qed.

Lemma data_bound_to_ok w o f :
  facade_ok env w f →
  facade_ok env (mkWorld (facades w) (fetchers w ++ [o]) (trace w))
    (bound_to (length (fetchers w)) f).
Proof.
  intros (HB & Hvap & Hfetch). unfold facade_ok.
  rewrite data_bound_to_fetcher, data_bound_to_standard.
  unfold bound_to.
  change (standard_applies (set_fetcher (length (fetchers w)) f))
    with (standard_applies f).
  destruct (standard_applies f) eqn:Hstd; simpl.
  - repeat split; try done. rewrite length_app. simpl. lia.
  - repeat split; try done.
    + rewrite length_app. simpl. lia.
    + intros Hpp. destruct (fetcher f) as [l|].
      * destruct Hfetch as [_ Hiff]. apply Hiff in Hpp. congruence.
      * congruence.
Qed.

Lemma data_access_point_ok name explicit self w :
  world_ok env w → world_ok env (access_point name explicit self w).2.
Proof.
  intros Hw.
  destruct (access_point name explicit self w) as [r w'] eqn:Hrun.
  apply data_access_point_cases in Hrun
    as [(e & _ & Hfac & Hfet)|(f & o & ctor & _ & Hf & _ & _ & Hfac & Hfet & _)];
    simpl; intros l f' Hl.
  - rewrite Hfac in Hl. eapply data_facade_ok_mono; [|by eapply Hw].
    by rewrite Hfet.
  - rewrite Hfac in Hl.
    destruct (decide (self = l)) as [->|Hne].
    + rewrite list_lookup_insert_eq in Hl by by eapply lookup_lt_Some.
      injection Hl as <-.
      pose proof (data_bound_to_ok w o f (Hw _ _ Hf)) as Hok.
      eapply data_facade_ok_mono; [|exact Hok]. simpl. by rewrite Hfet.
    + rewrite list_lookup_insert_ne in Hl by done.
      eapply data_facade_ok_mono; [|by eapply Hw].
      rewrite Hfet, length_app. lia.
Qed.

Lemma data_run_ok c w : world_ok env w → world_ok env (run env c w).
Proof.
  intros Hw. destruct c as [mode src ds fkw|limit defined self key|self wmo kw
    |self wmo cyc|self box|self kw|self kw]; simpl.
  - destruct (data_init_run mode src ds fkw w)
      as [[e ->]|(B & ds' & tr & HB & _ & ->)]; [done|].
    simpl. intros l f Hl.
    apply lookup_app_Some in Hl as [Hl|[_ Hl]].
    + eapply data_facade_ok_mono; [|by eapply Hw]. done.
    + apply list_lookup_singleton_Some in Hl as [_ <-].
      split; [by exists B|]. done.
  - by rewrite data_getattr_world.
  - rewrite data_float_unfold.
    destruct (_ || _); [done|]. by apply data_access_point_ok.
  - rewrite data_profile_unfold. by apply data_access_point_ok.
  - rewrite data_region_unfold. by apply data_access_point_ok.
  - by rewrite data_to_xarray_world.
  - by rewrite data_to_dataframe_world.
Qed.

Lemma data_reachable_ok w : reachable env w → world_ok env w.
Proof.
  induction 1 as [|w c _ IH].
  - intros l f Hl. simpl in Hl. by rewrite lookup_nil in Hl.
  - by apply data_run_ok.
Qed.

(** No call unbinds a facade, and no call removes one. *)
Lemma data_run_bound c w l f :
  facades w !! l = Some f →
  ∃ f', facades (run env c w) !! l = Some f'
        ∧ (is_Some (fetcher f) → is_Some (fetcher f')).
Proof.
  intros Hl.
  assert (∀ name explicit self,
    ∃ f', facades (access_point name explicit self w).2 !! l = Some f'
          ∧ (is_Some (fetcher f) → is_Some (fetcher f'))) as Hap.
  { intros name explicit self.
    destruct (access_point name explicit self w) as [r w'] eqn:Hrun.
    apply data_access_point_cases in Hrun
      as [(e & _ & Hfac & _)|(f0 & o & ctor & _ & Hf & _ & _ & Hfac & _)];
      simpl; rewrite Hfac.
    - by exists f.
    - destruct (decide (self = l)) as [->|Hne].
      + rewrite list_lookup_insert_eq by by eapply lookup_lt_Some.
        eexists. split; [done|]. rewrite data_bound_to_fetcher. by eexists.
      + rewrite list_lookup_insert_ne by done. by exists f. }
  destruct c as [mode src ds fkw|limit defined self key|self wmo kw
    |self wmo cyc|self box|self kw|self kw]; simpl.
  - destruct (data_init_run mode src ds fkw w)
      as [[e ->]|(B & ds' & tr & HB & _ & ->)]; simpl.
    + by exists f.
    + exists f. split; [|done]. by apply lookup_app_l_Some.
  - rewrite data_getattr_world. by exists f.
  - rewrite data_float_unfold.
    destruct (_ || _); [by exists f|]. apply Hap.
  - rewrite data_profile_unfold. apply Hap.
  - rewrite data_region_unfold. apply Hap.
  - rewrite data_to_xarray_world. by exists f.
  - rewrite data_to_dataframe_world. by exists f.
Qed.
End DataFacts.

(** ** The index facade *)

Section IndexFacts.
Import ArgoIndexFetcher.
Context {Dataset Frame Figure : Type}.
Context (env : Env Dataset Frame Figure).
Implicit Types
  (w : World (t Dataset Frame) (IndexFetcherObj Dataset Frame) Frame).
Implicit Types (f : t Dataset Frame) (self l : loc).

Lemma index_discover_in (B : Backend Dataset Frame) k :
  dict_in k (discover B)
  = bool_decide (k = "float") && bool_decide ("wmo" ∈ access_points B)
    || bool_decide (k = "region") && bool_decide ("box" ∈ access_points B).
Proof.
  unfold discover.
  assert (∀ (aps : list string) d,
    dict_in k (foldl (λ d p,
             let d :=
               if decide (p = "wmo")
               then dict_set "float" (IndexFetcher_wmo B) d
               else d in
             if decide (p = "box")
             then dict_set "region" (IndexFetcher_box B) d
             else d) d aps)
    = dict_in k d
      || bool_decide (k = "float") && bool_decide ("wmo" ∈ aps)
      || bool_decide (k = "region") && bool_decide ("box" ∈ aps)) as Hgen.
  { induction aps as [|p aps IH]; intros d; simpl.
    - rewrite !andb_false_r, !orb_false_r. done.
    - rewrite IH. clear IH.
      destruct (decide (p = "wmo")) as [Hw|Hw],
        (decide (p = "box")) as [Hb|Hb];
        subst; try discriminate; simpl; rewrite ?dict_in_set.
      + rewrite (bool_decide_ext ("box" ∈ "wmo" :: aps) ("box" ∈ aps))
          by (rewrite elem_of_cons; split; [intros [?|?]; [congruence|done] | by right]).
        destruct (bool_decide (k = "float")),
          (bool_decide (k = "region")), (dict_in k d),
          (bool_decide ("wmo" ∈ aps)), (bool_decide ("box" ∈ aps)); done.
      + rewrite (bool_decide_ext ("wmo" ∈ "box" :: aps) ("wmo" ∈ aps))
          by (rewrite elem_of_cons; split; [intros [?|?]; [congruence|done] | by right]).
        destruct (bool_decide (k = "float")),
          (bool_decide (k = "region")), (dict_in k d),
          (bool_decide ("wmo" ∈ aps)), (bool_decide ("box" ∈ aps)); done.
      + rewrite (bool_decide_ext ("wmo" ∈ p :: aps) ("wmo" ∈ aps))
          by (rewrite elem_of_cons; split; [intros [?|?]; [congruence|done] | by right]).
        rewrite (bool_decide_ext ("box" ∈ p :: aps) ("box" ∈ aps))
          by (rewrite elem_of_cons; split; [intros [?|?]; [congruence|done] | by right]).
        done. }
  rewrite Hgen, dict_in_nil. done.
Qed.

Lemma index_float_unfold self wmo w :
  float self wmo w = access_point "float" [("WMO", wmo)] self w.
Proof. reflexivity. Qed.

Lemma index_region_unfold self box w :
  region self box w = access_point "region" [("box", box)] self w.
Proof. reflexivity. Qed.

Lemma index_access_point_run name explicit self w f :
  facades w !! self = Some f →
  access_point name explicit self w =
    match dict_get name (Fetchers f) with
    | None =>
        (Raise (InvalidFetcherAccessPoint
                  ("'" +:+ name +:+ "' not available with '" +:+ _src f +:+ "' src")), w)
    | Some ctor =>
        match find (λ k, dict_in k (fetcher_options f)) (keys explicit) with
        | Some k =>
            (Raise (TypeError ("got multiple values for keyword argument '" +:+ k +:+ "'")), w)
        | None =>
            let kw := explicit ++ fetcher_options f in
            let tr := trace w ++ [EvConstruct kw] in
            match ctor kw with
            | Raise e => (Raise e, mkWorld (facades w) (fetchers w) tr)
            | Ok o =>
                (Ok self,
                 mkWorld (<[self := set_fetcher (length (fetchers w)) f]> (facades w))
                         (fetchers w ++ [o]) tr)
            end
        end
    end.
Proof.
  intros Hf.
  unfold access_point, mbind, M_bind. rewrite (deref_Some _ _ _ Hf).
  destruct (dict_get name (Fetchers f)) as [ctor|]; [|done].
  unfold construct.
  destruct (find _ (keys explicit)) as [k|]; [done|].
  unfold mbind, M_bind, emit, lift, new_fetcher, assign; simpl.
  destruct (ctor _) as [o|e]; [|done]. simpl.
  by rewrite Hf.
Qed.

Lemma index_access_point_dangling name explicit self w :
  facades w !! self = None →
  access_point name explicit self w
  = (Raise (AttributeError "dangling reference"), w).
Proof.
  intros Hf. unfold access_point, mbind, M_bind. by rewrite (deref_None _ _ Hf).
Qed.

Lemma index_access_point_cases name explicit self w r w' :
  access_point name explicit self w = (r, w') →
  (∃ e, r = Raise e ∧ facades w' = facades w ∧ fetchers w' = fetchers w)
  ∨ (∃ f o ctor,
       r = Ok self
       ∧ facades w !! self = Some f
       ∧ dict_get name (Fetchers f) = Some ctor
       ∧ ctor (explicit ++ fetcher_options f) = Ok o
       ∧ facades w' = <[self := set_fetcher (length (fetchers w)) f]> (facades w)
       ∧ fetchers w' = fetchers w ++ [o]
       ∧ trace w' = trace w ++ [EvConstruct (explicit ++ fetcher_options f)]).
Proof.
  destruct (facades w !! self) as [f|] eqn:Hf.
  - rewrite (index_access_point_run _ _ _ _ _ Hf).
    destruct (dict_get name (Fetchers f)) as [ctor|] eqn:Hctor.
    + destruct (find _ _) as [k|].
      * intros [= <- <-]. left. by eexists.
      * simpl. destruct (ctor _) as [o|e] eqn:Ho.
        -- intros [= <- <-]. right. exists f, o, ctor. done.
        -- intros [= <- <-]. left. by eexists.
    + intros [= <- <-]. left. by eexists.
  - rewrite (index_access_point_dangling _ _ _ _ Hf).
    intros [= <- <-]. left. by eexists.
Qed.

Lemma index_select_cases a self w r w' :
  select a self w = (r, w') →
  (∃ e, r = Raise e ∧ facades w' = facades w ∧ fetchers w' = fetchers w)
  ∨ (∃ f o explicit,
       r = Ok self
       ∧ facades w !! self = Some f
       ∧ facades w' = <[self := set_fetcher (length (fetchers w)) f]> (facades w)
       ∧ fetchers w' = fetchers w ++ [o]
       ∧ trace w' = trace w ++ [EvConstruct (explicit ++ fetcher_options f)]).
Proof.
  assert (∀ name explicit,
    access_point name explicit self w = (r, w') →
    (∃ e, r = Raise e ∧ facades w' = facades w ∧ fetchers w' = fetchers w)
    ∨ (∃ f o explicit,
         r = Ok self
         ∧ facades w !! self = Some f
         ∧ facades w' = <[self := set_fetcher (length (fetchers w)) f]> (facades w)
         ∧ fetchers w' = fetchers w ++ [o]
         ∧ trace w' = trace w ++ [EvConstruct (explicit ++ fetcher_options f)]))
    as Hap.
  { intros name explicit Hrun.
    apply index_access_point_cases in Hrun
      as [?|(f & o & ctor & ? & ? & _ & _ & ? & ? & ?)]; [by left|].
    right. by exists f, o, explicit. }
  destruct a as [wmo|box]; simpl.
  - rewrite index_float_unfold. apply Hap.
  - rewrite index_region_unfold. apply Hap.
Qed.

Lemma index_select_unsupported a self w f :
  facades w !! self = Some f →
  dict_get (selection_name a) (Fetchers f) = None →
  ∃ e, select a self w = (Raise e, w).
Proof.
  intros Hf Hname. destruct a as [wmo|box]; simpl in *.
  - rewrite index_float_unfold.
    rewrite (index_access_point_run _ _ _ _ _ Hf), Hname. by eexists.
  - rewrite index_region_unfold.
    rewrite (index_access_point_run _ _ _ _ _ Hf), Hname. by eexists.
Qed.

(** *** Terminal retrieval *)

Lemma index_to_dataframe_run self kw w f :
  facades w !! self = Some f →
  to_dataframe self kw w =
    match fetcher f with
    | None => (Raise (not_initialised f), w)
    | Some l =>
        match fetchers w !! l with
        | None => (Raise (AttributeError "dangling reference"), w)
        | Some o => (index_to_dataframe o kw, w)
        end
    end.
Proof.
  intros Hf. unfold to_dataframe, mbind, M_bind.
  rewrite (deref_Some _ _ _ Hf).
  destruct (fetcher f) as [l|]; [|done].
  unfold deref_fetcher, lift. by destruct (fetchers w !! l).
Qed.

Lemma index_to_xarray_run self kw w f :
  facades w !! self = Some f →
  to_xarray self kw w =
    match fetcher f with
    | None => (Raise (not_initialised f), w)
    | Some l =>
        match fetchers w !! l with
        | None => (Raise (AttributeError "dangling reference"), w)
        | Some o => (index_to_xarray o kw, w)
        end
    end.
Proof.
  intros Hf. unfold to_xarray, mbind, M_bind.
  rewrite (deref_Some _ _ _ Hf).
  destruct (fetcher f) as [l|]; [|done].
  unfold deref_fetcher, lift. by destruct (fetchers w !! l).
Qed.

Lemma index_to_csv_run self file w f :
  facades w !! self = Some f →
  to_csv env self file w =
    match fetcher f with
    | None => (Raise (not_initialised f), w)
    | Some l =>
        match fetchers w !! l with
        | None => (Raise (AttributeError "dangling reference"), w)
        | Some o =>
            (df ← index_to_dataframe o [] ;
             Frame_to_csv env df (default "output_file.csv" file), w)
        end
    end.
Proof.
  intros Hf. unfold to_csv, mbind at 1, M_bind.
  rewrite (deref_Some _ _ _ Hf).
  destruct (fetcher f) as [l|] eqn:Hl; [|done].
  unfold mbind at 1, M_bind.
  rewrite (index_to_dataframe_run _ _ _ _ Hf), Hl.
  destruct (fetchers w !! l) as [o|]; [|done].
  unfold lift. by destruct (index_to_dataframe o []).
Qed.

Lemma index_to_dataframe_world self kw w : (to_dataframe self kw w).2 = w.
Proof.
  destruct (facades w !! self) as [f|] eqn:Hf.
  - rewrite (index_to_dataframe_run _ _ _ _ Hf).
    destruct (fetcher f) as [l|]; [|done]. by destruct (fetchers w !! l).
  - unfold to_dataframe, mbind, M_bind. by rewrite (deref_None _ _ Hf).
Qed.

Lemma index_to_xarray_world self kw w : (to_xarray self kw w).2 = w.
Proof.
  destruct (facades w !! self) as [f|] eqn:Hf.
  - rewrite (index_to_xarray_run _ _ _ _ Hf).
    destruct (fetcher f) as [l|]; [|done]. by destruct (fetchers w !! l).
  - unfold to_xarray, mbind, M_bind. by rewrite (deref_None _ _ Hf).
Qed.

Lemma index_to_csv_world self file w : (to_csv env self file w).2 = w.
Proof.
  destruct (facades w !! self) as [f|] eqn:Hf.
  - rewrite (index_to_csv_run _ _ _ _ Hf).
    destruct (fetcher f) as [l|]; [|done]. by destruct (fetchers w !! l).
  - unfold to_csv, mbind, M_bind. by rewrite (deref_None _ _ Hf).
Qed.
(** *** Plotting *)

(** [plot] once the index frame [idx] has been fetched. *)
Lemma index_plot_run self ptype w idx :
  to_dataframe self [] w = (Ok idx, w) →
  plot env self ptype w =
    let ptype := default "trajectory" ptype in
    let called name arg :=
      mkWorld (facades w) (fetchers w) (trace w ++ [EvPlot name arg]) in
    if decide (ptype = "dac")
    then (plot_dac env idx, called "plot_dac" idx)
    else if decide (ptype = "profiler")
    then (plot_profilerType env idx, called "plot_profilerType" idx)
    else if decide (ptype = "trajectory")
    then match Frame_sort_values env idx ["file"] with
         | Ok sorted =>
             (plot_trajectory env sorted, called "plot_trajectory" sorted)
         | Raise e => (Raise e, w)
         end
    else (Raise (ValueError "Type of plot unavailable. Use: 'dac', 'profiler' or 'trajectory' (default)"), w).
Proof.
  intros Hdf. unfold plot, mbind at 1, M_bind. rewrite Hdf. simpl.
  repeat case_decide; done.
Qed.

Lemma index_plot_world self ptype w :
  facades (plot env self ptype w).2 = facades w
  ∧ fetchers (plot env self ptype w).2 = fetchers w.
Proof.
  destruct (to_dataframe self [] w) as [[idx|e] w'] eqn:Hdf.
  - pose proof (index_to_dataframe_world self [] w) as Hw.
    rewrite Hdf in Hw. simpl in Hw. subst w'.
    rewrite (index_plot_run _ _ _ _ Hdf). simpl.
    repeat case_decide; try done.
    by destruct (Frame_sort_values env idx ["file"]).
  - pose proof (index_to_dataframe_world self [] w) as Hw.
    rewrite Hdf in Hw. simpl in Hw. subst w'.
    unfold plot, mbind, M_bind. by rewrite Hdf.
Qed.

(** *** Attribute access and construction *)

(** A name the normal lookup finds. *)
Lemma index_getattr_defined limit defined self key w :
  key ∈ defined → getattr limit defined self key w = (Ok (Defined key), w).
Proof.
  intros Hdef. destruct limit; cbn [getattr];
    by rewrite (bool_decide_eq_true_2 _ Hdef).
Qed.

(** A name the normal lookup does not find, on an object on which it
    finds [valid_access_points]: [__getattr__] decides. *)
Lemma index_getattr_fallback limit defined self key w :
  "valid_access_points" ∈ defined →
  key ∉ defined →
  getattr limit defined self key w =
    match facades w !! self with
    | Some f =>
        if bool_decide (key ∉ valid_access_points f)
           && bool_decide (key ∉ ["Fetchers"; "fetcher"; "fetcher_options";
                                  "postproccessor"])
        then (Raise (InvalidFetcherAccessPoint
                       ("'" +:+ key +:+ "' is not a valid access point")), w)
        else (Ok (Fallback PyNone), w)
    | None => (Raise (AttributeError "dangling reference"), w)
    end.
Proof.
  intros Hvap Hdef.
  assert (getattr limit defined self key w
          = (v ← __getattr__ (λ name, mret (Defined name)) self key ;
             mret (Fallback v)) w) as ->.
  { destruct limit as [|limit]; cbn [getattr];
      rewrite (bool_decide_eq_false_2 _ Hdef);
      unfold __getattr__, mbind, M_bind.
    - by rewrite (bool_decide_eq_true_2 _ Hvap).
    - by rewrite (index_getattr_defined _ _ _ _ _ Hvap). }
  unfold __getattr__, mbind, M_bind, mret, M_ret, deref.
  destruct (facades w !! self) as [f|]; [|done].
  by destruct (_ && _).
Qed.

(** A name the normal lookup does not find, on an object on which it does
    not find [valid_access_points] either: [__getattr__] calls itself
    until the interpreter stops it. *)
Lemma index_getattr_recursion limit defined self key w :
  "valid_access_points" ∉ defined →
  key ∉ defined →
  getattr limit defined self key w
  = (Raise (RecursionError "maximum recursion depth exceeded"), w).
Proof.
  intros Hvap. revert key.
  induction limit as [|limit IH]; intros key Hdef; cbn [getattr];
    rewrite (bool_decide_eq_false_2 _ Hdef);
    unfold __getattr__, mbind, M_bind.
  - by rewrite (bool_decide_eq_false_2 _ Hvap).
  - by rewrite (IH _ Hvap).
Qed.

Lemma index_getattr_world limit defined self key w :
  (getattr limit defined self key w).2 = w.
Proof.
  destruct (decide (key ∈ defined)) as [Hdef|Hdef].
  { by rewrite index_getattr_defined. }
  destruct (decide ("valid_access_points" ∈ defined)) as [Hvap|Hvap].
  - rewrite index_getattr_fallback by done.
    destruct (facades w !! self) as [f|]; [|done]. by destruct (_ && _).
  - by rewrite index_getattr_recursion.
Qed.

Lemma index_init_run mode src fetcher_kwargs w :
  let mode' := if decide (mode = "") then OPTIONS env "mode" else mode in
  let src' := if decide (src = "") then OPTIONS env "src" else src in
  (∃ e, __init__ env mode src fetcher_kwargs w = (Raise e, w))
  ∨ (∃ B,
       AVAILABLE_SOURCES env !! src' = Some B
       ∧ __init__ env mode src fetcher_kwargs w
         = (Ok (length (facades w)),
            mkWorld
              (facades w ++
                 [{| _mode := mode'; _src := src';
                     valid_access_points := ["float"; "region"];
                     Fetchers := discover B;
                     fetcher := None;
                     fetcher_options := dict_merge [] fetcher_kwargs;
                     postproccessor := empty_processor |}])
              (fetchers w) (trace w))).
Proof.
  intros mode' src'. unfold __init__. fold mode' src'.
  unfold mbind at 1, M_bind, lift.
  destruct (_VALIDATORS env "mode" _); [|by left; eexists].
  unfold mbind at 1, M_bind.
  destruct (_VALIDATORS env "src" _); [|by left; eexists].
  destruct (AVAILABLE_SOURCES env !! src') as [B|] eqn:HB; [|by left; eexists].
  right. by exists B.
Qed.

(** *** The invariant of reachable stores *)

Lemma index_facade_ok_mono w w' f :
  length (fetchers w) ≤ length (fetchers w') →
  facade_ok env w f → facade_ok env w' f.
Proof.
  intros Hle (HB & Hvap & Hfetch). split; [done|]. split; [done|].
  destruct (fetcher f) as [l|]; [lia|done].
Qed.

Lemma index_access_point_ok name explicit self w :
  world_ok env w → world_ok env (access_point name explicit self w).2.
Proof.
  intros Hw.
  destruct (access_point name explicit self w) as [r w'] eqn:Hrun.
  apply index_access_point_cases in Hrun
    as [(e & _ & Hfac & Hfet)|(f & o & ctor & _ & Hf & _ & _ & Hfac & Hfet & _)];
    simpl; intros l f' Hl.
  - rewrite Hfac in Hl. eapply index_facade_ok_mono; [|by eapply Hw].
    by rewrite Hfet.
  - rewrite Hfac in Hl.
    destruct (decide (self = l)) as [->|Hne].
    + rewrite list_lookup_insert_eq in Hl by by eapply lookup_lt_Some.
      injection Hl as <-.
      destruct (Hw _ _ Hf) as (HB & Hvap & _).
      split; [done|]. split; [done|]. simpl.
      rewrite Hfet, length_app. simpl. lia.
    + rewrite list_lookup_insert_ne in Hl by done.
      eapply index_facade_ok_mono; [|by eapply Hw].
      rewrite Hfet, length_app. lia.
Qed.

Lemma index_run_ok c w : world_ok env w → world_ok env (run env c w).
Proof.
  intros Hw. destruct c as [mode src fkw|limit defined self key|self wmo
    |self box|self kw|self kw|self file|self ptype]; simpl.
  - destruct (index_init_run mode src fkw w) as [[e ->]|(B & HB & ->)]; [done|].
    simpl. intros l f Hl.
    apply lookup_app_Some in Hl as [Hl|[_ Hl]].
    + eapply index_facade_ok_mono; [|by eapply Hw]. done.
    + apply list_lookup_singleton_Some in Hl as [_ <-].
      split; [by exists B|]. done.
  - by rewrite index_getattr_world.
  - rewrite index_float_unfold. by apply index_access_point_ok.
  - rewrite index_region_unfold. by apply index_access_point_ok.
  - by rewrite index_to_dataframe_world.
  - by rewrite index_to_xarray_world.
  - by rewrite index_to_csv_world.
  - destruct (index_plot_world self ptype w) as [Hfac Hfet].
    intros l f Hl. rewrite Hfac in Hl.
    eapply index_facade_ok_mono; [|by eapply Hw]. by rewrite Hfet.
Qed.

Lemma index_reachable_ok w : reachable env w → world_ok env w.
Proof.
  induction 1 as [|w c _ IH].
  - intros l f Hl. simpl in Hl. by rewrite lookup_nil in Hl.
  - by apply index_run_ok.
Qed.

Lemma index_run_bound c w l f :
  facades w !! l = Some f →
  ∃ f', facades (run env c w) !! l = Some f'
        ∧ (is_Some (fetcher f) → is_Some (fetcher f')).
Proof.
  intros Hl.
  assert (∀ name explicit self,
    ∃ f', facades (access_point name explicit self w).2 !! l = Some f'
          ∧ (is_Some (fetcher f) → is_Some (fetcher f'))) as Hap.
  { intros name explicit self.
    destruct (access_point name explicit self w) as [r w'] eqn:Hrun.
    apply index_access_point_cases in Hrun
      as [(e & _ & Hfac & _)|(f0 & o & ctor & _ & Hf & _ & _ & Hfac & _)];
      simpl; rewrite Hfac.
    - by exists f.
    - destruct (decide (self = l)) as [->|Hne].
      + rewrite list_lookup_insert_eq by by eapply lookup_lt_Some.
        eexists. split; [done|]. by eexists.
      + rewrite list_lookup_insert_ne by done. by exists f. }
  destruct c as [mode src fkw|limit defined self key|self wmo
    |self box|self kw|self kw|self file|self ptype]; simpl.
  - destruct (index_init_run mode src fkw w) as [[e ->]|(B & HB & ->)]; simpl.
    + by exists f.
    + exists f. split; [|done]. by apply lookup_app_l_Some.
  - rewrite index_getattr_world. by exists f.
  - rewrite index_float_unfold. apply Hap.
  - rewrite index_region_unfold. apply Hap.
  - rewrite index_to_dataframe_world. by exists f.
  - rewrite index_to_xarray_world. by exists f.
  - rewrite index_to_csv_world. by exists f.
  - destruct (index_plot_world self ptype w) as [-> _]. by exists f.
Qed.
End IndexFacts.

(** ** The facade as the documentation describes it *)

Section DataClaims.
Import ArgoDataFetcher.
Context {Dataset Frame Figure : Type}.
Context (env : Env Dataset Frame Figure).
Implicit Types (w : World (t Dataset) (DataFetcherObj Dataset) Frame).
Implicit Types (f : t Dataset) (self l : loc).

Lemma data_standard_applies_iff f :
  standard_applies f = true
  ↔ _mode f = "standard" ∧ _dataset_id f ≠ Some "ref".
Proof.
  unfold standard_applies.
  rewrite andb_true_iff, negb_true_iff, bool_decide_eq_true,
    bool_decide_eq_false. done.
Qed.

(** In a reachable store the fetcher of a bound facade is an object of
    the store, and the facade holds the chain exactly when the standard
    mode applies. *)
Lemma data_bound_reachable w self f l :
  reachable env w →
  facades w !! self = Some f →
  fetcher f = Some l →
  (postproccessor f = postprocessing ↔ standard_applies f = true)
  ∧ ∃ o, fetchers w !! l = Some o.
Proof.
  intros Hreach Hf Hl.
  destruct (data_reachable_ok env w Hreach self f Hf) as (_ & _ & Hfetch).
  rewrite Hl in Hfetch. destruct Hfetch as [Hlt Hpp]. split; [done|].
  by apply lookup_lt_is_Some_2.
Qed.

Lemma data_unbound_reachable w self f :
  reachable env w →
  facades w !! self = Some f →
  fetcher f = None →
  postproccessor f = empty_processor.
Proof.
  intros Hreach Hf Hl.
  destruct (data_reachable_ok env w Hreach self f Hf) as (_ & _ & Hfetch).
  by rewrite Hl in Hfetch.
Qed.

(** C2: the post-processor of a facade is the identity until an access
    point is selected; once a fetcher is bound it is the chain
    [filter_data_mode], [filter_qc], [filter_variables], in this order,
    exactly when the mode is "standard" and the dataset is not "ref", and
    [to_xarray] returns the backend's dataset filtered by the chain in
    that case and unchanged in every other. *)
Theorem data_postprocessor_standard_only w self f kw :
  reachable env w →
  facades w !! self = Some f →
  match fetcher f with
  | None =>
      postproccessor f = empty_processor
      ∧ ∀ xds, call_postproccessor self xds w = (Ok xds, w)
  | Some l =>
      (postproccessor f = postprocessing
       ↔ _mode f = "standard" ∧ _dataset_id f ≠ Some "ref")
      ∧ ∃ o, fetchers w !! l = Some o
             ∧ to_xarray self kw w
               = (if bool_decide (_mode f = "standard"
                                  ∧ _dataset_id f ≠ Some "ref")
                  then xds ← fetch_to_xarray o kw ;
                       xds ← filter_data_mode o xds ;
                       xds ← filter_qc o xds ;
                       filter_variables o xds (_mode f)
                  else fetch_to_xarray o kw,
                  w)
  end.
Proof.
  intros Hreach Hf.
  destruct (fetcher f) as [l|] eqn:Hl.
  - destruct (data_bound_reachable w self f l Hreach Hf Hl) as [Hpp [o Ho]].
    rewrite <- data_standard_applies_iff. split; [done|].
    exists o. split; [done|].
    rewrite (data_to_xarray_run _ _ _ _ Hf), Hl, Ho. f_equal.
    rewrite (bool_decide_ext _ _ (symmetry (data_standard_applies_iff f))).
    destruct (standard_applies f) eqn:Hstd.
    + rewrite bool_decide_eq_true_2 by done.
      rewrite (proj2 Hpp eq_refl). done.
    + rewrite bool_decide_eq_false_2 by done.
      destruct (postproccessor f).
      * by destruct (fetch_to_xarray o kw).
      * by destruct Hpp as [Hpp _]; specialize (Hpp eq_refl).
  - pose proof (data_unbound_reachable w self f Hreach Hf Hl) as Hpp.
    split; [done|]. intros xds.
    by rewrite (data_call_postproccessor_run _ _ _ _ Hf), Hpp.
Qed.

(** C3: the mapping from access points to constructors has the keys
    'float' and 'profile' (both on [Fetch_wmo]) exactly when the backend
    declares 'wmo', and the key 'region' (on [Fetch_box]) exactly when it
    declares 'box'; on a backend without 'wmo', [float] (called without a
    cycle keyword) and [profile] raise [InvalidFetcherAccessPoint] with a
    message that carries the source name of the backend. *)
Theorem data_access_points_follow_capabilities w self f :
  reachable env w →
  facades w !! self = Some f →
  ∃ B, AVAILABLE_SOURCES env !! _src f = Some B
    ∧ ("float" ∈ keys (Fetchers f) ↔ "wmo" ∈ access_points B)
    ∧ ("profile" ∈ keys (Fetchers f) ↔ "wmo" ∈ access_points B)
    ∧ ("region" ∈ keys (Fetchers f) ↔ "box" ∈ access_points B)
    ∧ (∀ k, k ∈ keys (Fetchers f) → k ∈ ["profile"; "float"; "region"])
    ∧ ("wmo" ∈ access_points B →
         dict_get "float" (Fetchers f) = Some (Fetch_wmo B)
         ∧ dict_get "profile" (Fetchers f) = Some (Fetch_wmo B))
    ∧ ("box" ∈ access_points B →
         dict_get "region" (Fetchers f) = Some (Fetch_box B))
    ∧ ("wmo" ∉ access_points B →
         (∀ wmo kw,
            dict_in "CYC" kw = false → dict_in "cyc" kw = false →
            float self wmo kw w
            = (Raise (InvalidFetcherAccessPoint
                        ("'float' not available with '" +:+ _src f +:+ "' src")), w))
         ∧ (∀ wmo cyc,
              profile self wmo cyc w
              = (Raise (InvalidFetcherAccessPoint
                          ("'profile' not available with '" +:+ _src f +:+ "' src")), w))).
Proof.
  intros Hreach Hf.
  destruct (data_reachable_ok env w Hreach self f Hf)
    as ((B & HB & HF) & _ & _).
  exists B. split; [done|]. rewrite HF.
  split; [|split; [|split; [|split; [|split; [|split]]]]].
  - rewrite data_discover_keys. intuition congruence.
  - rewrite data_discover_keys. intuition congruence.
  - rewrite data_discover_keys. intuition congruence.
  - intros k. rewrite data_discover_keys, !elem_of_cons. tauto.
  - intros Hwmo. rewrite !data_discover_get.
    by rewrite (bool_decide_eq_true_2 _ Hwmo).
  - intros Hbox. rewrite data_discover_get.
    by rewrite (bool_decide_eq_true_2 _ Hbox).
  - intros Hwmo. split.
    + intros wmo kw HCYC Hcyc.
      rewrite data_float_unfold, HCYC, Hcyc. simpl.
      rewrite (data_access_point_run _ _ _ _ _ Hf), HF, data_discover_get.
      by rewrite (bool_decide_eq_false_2 _ Hwmo).
    + intros wmo cyc.
      rewrite data_profile_unfold.
      rewrite (data_access_point_run _ _ _ _ _ Hf), HF, data_discover_get.
      by rewrite (bool_decide_eq_false_2 _ Hwmo).
Qed.

(** C5: [float] called with a keyword [CYC] or [cyc] raises, whatever the
    backend and the WMO; no constructor has run (the store, with its
    record of constructor calls, is as before) and the message points to
    the 'profile' access point. *)
Theorem data_float_rejects_cycle_keyword self wmo kw w :
  dict_in "CYC" kw = true ∨ dict_in "cyc" kw = true →
  float self wmo kw w
  = (Raise (TypeError "float() got an unexpected keyword argument 'cyc'. Use 'profile' access point to fetch specific profile data."), w).
Proof. apply data_float_cycle_keyword. Qed.

(** C7: on a bound facade, [to_dataframe] returns the tabular conversion
    of what [to_xarray] returns for the same keywords, so it is the
    retrieval, then the chain of the standard mode where it applies, then
    the conversion. *)
Theorem data_to_dataframe_converts_to_xarray w self f l kw :
  reachable env w →
  facades w !! self = Some f →
  fetcher f = Some l →
  to_dataframe env self kw w
  = ((to_xarray self kw w).1 ≫= Dataset_to_dataframe env, w)
  ∧ ∃ o, fetchers w !! l = Some o
         ∧ to_dataframe env self kw w = (to_dataframe_spec env f o kw, w).
Proof.
  intros Hreach Hf Hl.
  rewrite data_to_dataframe_run, data_to_xarray_world. split; [done|].
  destruct (data_bound_reachable w self f l Hreach Hf Hl) as [Hpp [o Ho]].
  exists o. split; [done|].
  rewrite (data_to_xarray_run _ _ _ _ Hf), Hl, Ho. simpl. f_equal.
  unfold to_dataframe_spec.
  destruct (fetch_to_xarray o kw) as [x0|]; [|done]. simpl.
  destruct (standard_applies f) eqn:Hstd.
  - by rewrite (proj2 Hpp eq_refl).
  - destruct (postproccessor f); [done|].
    by destruct Hpp as [Hpp _]; specialize (Hpp eq_refl).
Qed.
End DataClaims.

Section IndexClaims.
Import ArgoIndexFetcher.
Context {Dataset Frame Figure : Type}.
Context (env : Env Dataset Frame Figure).
Implicit Types
  (w : World (t Dataset Frame) (IndexFetcherObj Dataset Frame) Frame).
Implicit Types (f : t Dataset Frame) (self l : loc).

Lemma index_to_dataframe_frame self kw w w' :
  facades w' = facades w → fetchers w' = fetchers w →
  (to_dataframe self kw w').1 = (to_dataframe self kw w).1.
Proof.
  intros Hfac Hfet.
  destruct (facades w !! self) as [f|] eqn:Hf.
  - rewrite (index_to_dataframe_run _ _ _ _ Hf).
    rewrite <- Hfac in Hf. rewrite (index_to_dataframe_run _ _ _ _ Hf), Hfet.
    destruct (fetcher f) as [l|]; [|done].
    by destruct (fetchers w !! l).
  - unfold to_dataframe, mbind, M_bind. rewrite (deref_None _ _ Hf).
    rewrite <- Hfac in Hf. by rewrite (deref_None _ _ Hf).
Qed.

(** C6: on a bound index facade whose fetcher returns the frame [idx],
    [plot] calls [plot_dac] on [idx] for 'dac', [plot_profilerType] on
    [idx] for 'profiler', [plot_trajectory] on [idx] sorted by 'file' for
    'trajectory' and when the plot type is left out, and raises
    [ValueError] for any other plot type; in each case the named plotter
    is the only one called, and none is called when [plot] raises
    [ValueError]. *)
Theorem index_plot_dispatches_on_ptype w self f l o idx :
  facades w !! self = Some f →
  fetcher f = Some l →
  fetchers w !! l = Some o →
  index_to_dataframe o [] = Ok idx →
  let called name arg :=
    mkWorld (facades w) (fetchers w) (trace w ++ [EvPlot name arg]) in
  plot env self (Some "dac") w = (plot_dac env idx, called "plot_dac" idx)
  ∧ plot env self (Some "profiler") w
    = (plot_profilerType env idx, called "plot_profilerType" idx)
  ∧ (∀ sorted,
       Frame_sort_values env idx ["file"] = Ok sorted →
       plot env self (Some "trajectory") w
       = (plot_trajectory env sorted, called "plot_trajectory" sorted)
       ∧ plot env self None w = plot env self (Some "trajectory") w)
  ∧ (∀ ptype,
       ptype ≠ "dac" → ptype ≠ "profiler" → ptype ≠ "trajectory" →
       plot env self (Some ptype) w
       = (Raise (ValueError "Type of plot unavailable. Use: 'dac', 'profiler' or 'trajectory' (default)"), w)).
Proof.
  intros Hf Hl Ho Hidx called.
  assert (to_dataframe self [] w = (Ok idx, w)) as Hdf.
  { by rewrite (index_to_dataframe_run _ _ _ _ Hf), Hl, Ho, Hidx. }
  split; [|split; [|split]].
  - by rewrite (index_plot_run _ _ _ _ _ Hdf).
  - by rewrite (index_plot_run _ _ _ _ _ Hdf).
  - intros sorted Hsorted. split; [|done].
    rewrite (index_plot_run _ _ _ _ _ Hdf). simpl. by rewrite Hsorted.
  - intros ptype H1 H2 H3.
    rewrite (index_plot_run _ _ _ _ _ Hdf). simpl.
    by repeat case_decide.
Qed.
End IndexClaims.

(** ** Both facades *)

Section FacadeClaims.
Context {Dataset Frame Figure : Type}.
Context (env : Env Dataset Frame Figure).

Abbreviation data_world :=
  (World (ArgoDataFetcher.t Dataset) (DataFetcherObj Dataset) Frame).
Abbreviation index_world :=
  (World (ArgoIndexFetcher.t Dataset Frame)
     (IndexFetcherObj Dataset Frame) Frame).

(** C4: on either facade, a terminal retrieval method called while no
    fetcher is bound raises [InvalidFetcher] with a message that lists the
    keys of [Fetchers], the access points of the current backend; once an
    access point has returned, the terminal methods pass that guard, hand
    the retrieval to the bound fetcher and leave the store as it is, so
    they can be called again with the same outcome. *)
Theorem terminal_calls_require_access_point :
  (∀ (w : data_world) self f kw,
     facades w !! self = Some f →
     ArgoDataFetcher.fetcher f = None →
     let e := InvalidFetcher (" Initialize an access point ("
                +:+ join "," (keys (ArgoDataFetcher.Fetchers f))
                +:+ ") first.") in
     ArgoDataFetcher.to_xarray self kw w = (Raise e, w)
     ∧ ArgoDataFetcher.to_dataframe env self kw w = (Raise e, w))
  ∧ (∀ (w : index_world) self f kw file,
       facades w !! self = Some f →
       ArgoIndexFetcher.fetcher f = None →
       let e := InvalidFetcher (" Initialize an access point ("
                  +:+ join "," (keys (ArgoIndexFetcher.Fetchers f))
                  +:+ ") first.") in
       ArgoIndexFetcher.to_xarray self kw w = (Raise e, w)
       ∧ ArgoIndexFetcher.to_dataframe self kw w = (Raise e, w)
       ∧ ArgoIndexFetcher.to_csv env self file w = (Raise e, w))
  ∧ (∀ (w w' : data_world) a self r kw,
       ArgoDataFetcher.select a self w = (Ok r, w') →
       ∃ f' o,
         facades w' !! self = Some f'
         ∧ ArgoDataFetcher.fetcher f' = Some (length (fetchers w))
         ∧ fetchers w' !! length (fetchers w) = Some o
         ∧ ArgoDataFetcher.to_xarray self kw w'
           = (xds ← fetch_to_xarray o kw ;
              match ArgoDataFetcher.postproccessor f' with
              | empty_processor => Ok xds
              | postprocessing =>
                  ArgoDataFetcher.filter_chain o (ArgoDataFetcher._mode f') xds
              end, w')
         ∧ ArgoDataFetcher.to_dataframe env self kw w'
           = ((ArgoDataFetcher.to_xarray self kw w').1
                ≫= Dataset_to_dataframe env, w')
         ∧ ArgoDataFetcher.to_xarray self kw
             (ArgoDataFetcher.to_xarray self kw w').2
           = ArgoDataFetcher.to_xarray self kw w')
  ∧ (∀ (w w' : index_world) a self r kw file,
       ArgoIndexFetcher.select a self w = (Ok r, w') →
       ∃ f' o,
         facades w' !! self = Some f'
         ∧ ArgoIndexFetcher.fetcher f' = Some (length (fetchers w))
         ∧ fetchers w' !! length (fetchers w) = Some o
         ∧ ArgoIndexFetcher.to_dataframe self kw w'
           = (index_to_dataframe o kw, w')
         ∧ ArgoIndexFetcher.to_xarray self kw w'
           = (index_to_xarray o kw, w')
         ∧ ArgoIndexFetcher.to_csv env self file w'
           = (df ← index_to_dataframe o [] ;
              Frame_to_csv env df (default "output_file.csv" file), w')).
Proof.
  split; [|split; [|split]].
  - intros w self f kw Hf Hnone e. split.
    + by rewrite (data_to_xarray_run _ _ _ _ Hf), Hnone.
    + rewrite data_to_dataframe_run.
      by rewrite (data_to_xarray_run _ _ _ _ Hf), Hnone.
  - intros w self f kw file Hf Hnone e. split; [|split].
    + by rewrite (index_to_xarray_run _ _ _ _ Hf), Hnone.
    + by rewrite (index_to_dataframe_run _ _ _ _ Hf), Hnone.
    + by rewrite (index_to_csv_run _ _ _ _ _ Hf), Hnone.
  - intros w w' a self r kw Hsel.
    apply data_select_cases in Hsel
      as [(e & [=] & _)|(f & o & explicit & _ & Hf & Hfac & Hfet & _)].
    pose proof (lookup_lt_Some _ _ _ Hf) as Hlt.
    assert (facades w' !! self
            = Some (ArgoDataFetcher.bound_to (length (fetchers w)) f)) as Hf'.
    { rewrite Hfac. by apply list_lookup_insert_eq. }
    assert (fetchers w' !! length (fetchers w) = Some o) as Ho.
    { rewrite Hfet. by apply list_lookup_middle. }
    eexists _, o. split; [exact Hf'|].
    split; [apply data_bound_to_fetcher|]. split; [done|].
    assert (ArgoDataFetcher.to_xarray self kw w'
            = (xds ← fetch_to_xarray o kw ;
               match ArgoDataFetcher.postproccessor
                       (ArgoDataFetcher.bound_to (length (fetchers w)) f) with
               | empty_processor => Ok xds
               | postprocessing =>
                   ArgoDataFetcher.filter_chain o
                     (ArgoDataFetcher._mode
                        (ArgoDataFetcher.bound_to (length (fetchers w)) f)) xds
               end, w')) as Hx.
    { by rewrite (data_to_xarray_run _ _ _ _ Hf'), data_bound_to_fetcher, Ho. }
    split; [done|]. split.
    + by rewrite data_to_dataframe_run, data_to_xarray_world.
    + by rewrite data_to_xarray_world.
  - intros w w' a self r kw file Hsel.
    apply index_select_cases in Hsel
      as [(e & [=] & _)|(f & o & explicit & _ & Hf & Hfac & Hfet & _)].
    pose proof (lookup_lt_Some _ _ _ Hf) as Hlt.
    assert (facades w' !! self
            = Some (ArgoIndexFetcher.set_fetcher (length (fetchers w)) f)) as Hf'.
    { rewrite Hfac. by apply list_lookup_insert_eq. }
    assert (fetchers w' !! length (fetchers w) = Some o) as Ho.
    { rewrite Hfet. by apply list_lookup_middle. }
    eexists _, o. split; [exact Hf'|]. split; [done|]. split; [done|].
    split; [|split].
    + rewrite (index_to_dataframe_run _ _ _ _ Hf'). simpl. by rewrite Ho.
    + rewrite (index_to_xarray_run _ _ _ _ Hf'). simpl. by rewrite Ho.
    + rewrite (index_to_csv_run _ _ _ _ _ Hf'). simpl. by rewrite Ho.
Qed.

(** C8: an access point that returns, on either facade, returns the
    reference it was called on; the backend constructor has run once and
    its instance is a new object of the store; the facade is bound to that
    instance whatever it was bound to before.  No call of any method
    leaves a bound facade unbound. *)
Theorem access_point_returns_self_and_rebinds :
  (∀ (w w' : data_world) a self r,
     ArgoDataFetcher.select a self w = (Ok r, w') →
     r = self
     ∧ ∃ f o explicit,
         facades w !! self = Some f
         ∧ fetchers w !! length (fetchers w) = None
         ∧ fetchers w' = fetchers w ++ [o]
         ∧ trace w' = trace w
             ++ [EvConstruct (explicit ++ ArgoDataFetcher.fetcher_options f)]
         ∧ facades w'
           = <[self := ArgoDataFetcher.bound_to (length (fetchers w)) f]>
               (facades w)
         ∧ ArgoDataFetcher.fetcher
             (ArgoDataFetcher.bound_to (length (fetchers w)) f)
           = Some (length (fetchers w)))
  ∧ (∀ (w w' : index_world) a self r,
       ArgoIndexFetcher.select a self w = (Ok r, w') →
       r = self
       ∧ ∃ f o explicit,
           facades w !! self = Some f
           ∧ fetchers w !! length (fetchers w) = None
           ∧ fetchers w' = fetchers w ++ [o]
           ∧ trace w' = trace w
               ++ [EvConstruct (explicit ++ ArgoIndexFetcher.fetcher_options f)]
           ∧ facades w'
             = <[self := ArgoIndexFetcher.set_fetcher (length (fetchers w)) f]>
                 (facades w)
           ∧ ArgoIndexFetcher.fetcher
               (ArgoIndexFetcher.set_fetcher (length (fetchers w)) f)
             = Some (length (fetchers w)))
  ∧ (∀ (w : data_world) c l f,
       facades w !! l = Some f →
       is_Some (ArgoDataFetcher.fetcher f) →
       ∃ f', facades (ArgoDataFetcher.run env c w) !! l = Some f'
             ∧ is_Some (ArgoDataFetcher.fetcher f'))
  ∧ (∀ (w : index_world) c l f,
       facades w !! l = Some f →
       is_Some (ArgoIndexFetcher.fetcher f) →
       ∃ f', facades (ArgoIndexFetcher.run env c w) !! l = Some f'
             ∧ is_Some (ArgoIndexFetcher.fetcher f')).
Proof.
  split; [|split; [|split]].
  - intros w w' a self r Hsel.
    apply data_select_cases in Hsel
      as [(e & [=] & _)|(f & o & explicit & [= ->] & Hf & Hfac & Hfet & Htr)].
    split; [done|]. exists f, o, explicit.
    split; [done|]. split; [by apply lookup_ge_None|].
    split; [done|]. split; [done|]. split; [done|].
    apply data_bound_to_fetcher.
  - intros w w' a self r Hsel.
    apply index_select_cases in Hsel
      as [(e & [=] & _)|(f & o & explicit & [= ->] & Hf & Hfac & Hfet & Htr)].
    split; [done|]. exists f, o, explicit.
    split; [done|]. split; [by apply lookup_ge_None|]. done.
  - intros w c l f Hf Hbound.
    destruct (data_run_bound env c w l f Hf) as (f' & Hf' & Hkeep).
    exists f'. split; [done|]. by apply Hkeep.
  - intros w c l f Hf Hbound.
    destruct (index_run_bound env c w l f Hf) as (f' & Hf' & Hkeep).
    exists f'. split; [done|]. by apply Hkeep.
Qed.


(** C10: an access point that raises, on either facade, leaves every
    facade and every fetcher instance of the store as they were, so the
    terminal methods of a bound facade behave as before the call; when
    the access point is not supported by the backend, or [float] is given
    a cycle keyword, the store is left as it was altogether. *)
Theorem failing_access_point_changes_nothing :
  (∀ (w w' : data_world) a self e,
     ArgoDataFetcher.select a self w = (Raise e, w') →
     facades w' = facades w
     ∧ fetchers w' = fetchers w
     ∧ ∀ l kw, (ArgoDataFetcher.to_xarray l kw w').1
               = (ArgoDataFetcher.to_xarray l kw w).1)
  ∧ (∀ (w : data_world) a self f,
       facades w !! self = Some f →
       dict_get (ArgoDataFetcher.selection_name a) (ArgoDataFetcher.Fetchers f)
       = None →
       ∃ e, ArgoDataFetcher.select a self w = (Raise e, w))
  ∧ (∀ (w : data_world) self wmo kw,
       dict_in "CYC" kw = true ∨ dict_in "cyc" kw = true →
       ∃ e, ArgoDataFetcher.select (ArgoDataFetcher.Select_float wmo kw) self w
            = (Raise e, w))
  ∧ (∀ (w w' : index_world) a self e,
       ArgoIndexFetcher.select a self w = (Raise e, w') →
       facades w' = facades w
       ∧ fetchers w' = fetchers w
       ∧ ∀ l kw, (ArgoIndexFetcher.to_dataframe l kw w').1
                 = (ArgoIndexFetcher.to_dataframe l kw w).1)
  ∧ (∀ (w : index_world) a self f,
       facades w !! self = Some f →
       dict_get (ArgoIndexFetcher.selection_name a)
         (ArgoIndexFetcher.Fetchers f) = None →
       ∃ e, ArgoIndexFetcher.select a self w = (Raise e, w)).
Proof.
  split; [|split; [|split; [|split]]].
  - intros w w' a self e Hsel.
    apply data_select_cases in Hsel
      as [(e' & _ & Hfac & Hfet)|(f & o & explicit & [=] & _)].
    split; [done|]. split; [done|].
    intros l kw. by apply data_to_xarray_frame.
  - intros w a self f. apply data_select_unsupported.
  - intros w self wmo kw Hkw. simpl.
    rewrite (data_float_cycle_keyword _ _ _ _ Hkw). by eexists.
  - intros w w' a self e Hsel.
    apply index_select_cases in Hsel
      as [(e' & _ & Hfac & Hfet)|(f & o & explicit & [=] & _)].
    split; [done|]. split; [done|].
    intros l kw. by apply index_to_dataframe_frame.
  - intros w a self f. apply index_select_unsupported.
Qed.
End FacadeClaims.

(** ** The stub environment at work *)

(** C1: with the dataset argument left out, the facade resolves its own
    [_dataset_id] from the default options ('phy'), but the 'ds' option it
    stores, and passes to the backend constructor at every access point, is
    the argument as it came: the empty string. *)
Theorem data_unset_dataset_reaches_backend_unresolved :
  ∃ f,
    facades data_fresh !! 0 = Some f
    ∧ ArgoDataFetcher._dataset_id f = Some (OPTIONS stub_env "dataset")
    ∧ OPTIONS stub_env "dataset" = "phy"
    ∧ dict_get "ds" (ArgoDataFetcher.fetcher_options f) = Some (PyStr "")
    ∧ trace (ArgoDataFetcher.run stub_env
               (ArgoDataFetcher.Call_float 0 (PyInt 6902746) []) data_fresh)
      = [EvConstruct [("WMO", PyInt 6902746); ("ds", PyStr "")]]
    ∧ trace (ArgoDataFetcher.run stub_env
               (ArgoDataFetcher.Call_profile 0 (PyInt 6902746) (PyInt 34))
               data_fresh)
      = [EvConstruct [("WMO", PyInt 6902746); ("CYC", PyInt 34); ("ds", PyStr "")]]
    ∧ trace (ArgoDataFetcher.run stub_env
               (ArgoDataFetcher.Call_region 0
                  (PyList [PyInt (-85); PyInt (-45); PyInt 10; PyInt 20;
                           PyInt 0; PyInt 1000]))
               data_fresh)
      = [EvConstruct
           [("box", PyList [PyInt (-85); PyInt (-45); PyInt 10; PyInt 20;
                            PyInt 0; PyInt 1000]);
            ("ds", PyStr "")]].
Proof. eexists. repeat split; vm_compute; reflexivity. Qed.

Lemma data_bound_is_reachable : ArgoDataFetcher.reachable stub_env data_bound.
Proof. apply ArgoDataFetcher.reachable_run, ArgoDataFetcher.reachable_run,
  ArgoDataFetcher.reachable_empty. Defined.

Lemma data_expert_bound_is_reachable :
  ArgoDataFetcher.reachable stub_env data_expert_bound.
Proof. apply ArgoDataFetcher.reachable_run, ArgoDataFetcher.reachable_run,
  ArgoDataFetcher.reachable_empty. Defined.

Lemma data_postprocessor_standard_only_witness :
  ArgoDataFetcher.reachable stub_env data_bound
  ∧ ArgoDataFetcher.to_xarray 0 [] data_bound
    = (Ok ["raw"; "data_mode"; "qc"; "variables:standard"], data_bound)
  ∧ ArgoDataFetcher.reachable stub_env data_expert_bound
  ∧ ArgoDataFetcher.to_xarray 0 [] data_expert_bound
    = (Ok ["raw"], data_expert_bound).
Proof.
  split; [exact data_bound_is_reachable|]. split.
  - pose proof (data_postprocessor_standard_only stub_env data_bound 0 _ []
                  data_bound_is_reachable eq_refl) as H.
    simpl in H. destruct H as (_ & o & Ho & Hx).
    injection Ho as <-. exact Hx.
  - split; [exact data_expert_bound_is_reachable|].
    pose proof (data_postprocessor_standard_only stub_env data_expert_bound 0 _ []
                  data_expert_bound_is_reachable eq_refl) as H.
    simpl in H. destruct H as (_ & o & Ho & Hx).
    injection Ho as <-. exact Hx.
Defined.

Lemma data_to_dataframe_converts_to_xarray_witness :
  ArgoDataFetcher.reachable stub_env data_bound
  ∧ ArgoDataFetcher.to_dataframe stub_env 0 [] data_bound
    = (Ok ["raw"; "data_mode"; "qc"; "variables:standard"; "frame"], data_bound).
Proof.
  split; [exact data_bound_is_reachable|].
  destruct (data_to_dataframe_converts_to_xarray stub_env data_bound 0 _ 0 []
              data_bound_is_reachable eq_refl eq_refl) as [Hx _].
  exact Hx.
Defined.

Lemma data_gridded_is_reachable : ArgoDataFetcher.reachable stub_env data_gridded.
Proof. apply ArgoDataFetcher.reachable_run, ArgoDataFetcher.reachable_empty. Defined.

Lemma data_access_points_follow_capabilities_witness :
  ArgoDataFetcher.reachable stub_env data_gridded
  ∧ ArgoDataFetcher.float 0 (PyInt 6902746) [] data_gridded
    = (Raise (InvalidFetcherAccessPoint "'float' not available with 'gridded' src"),
       data_gridded)
  ∧ ArgoDataFetcher.profile 0 (PyInt 6902746) (PyInt 34) data_gridded
    = (Raise (InvalidFetcherAccessPoint "'profile' not available with 'gridded' src"),
       data_gridded).
Proof.
  split; [exact data_gridded_is_reachable|].
  destruct (data_access_points_follow_capabilities stub_env data_gridded 0 _
              data_gridded_is_reachable eq_refl)
    as (B & HB & _ & _ & _ & _ & _ & _ & Hno).
  vm_compute in HB. injection HB as <-.
  assert ("wmo" ∉ access_points (stub_backend ["box"])) as Hwmo.
  { apply (bool_decide_unpack _). vm_compute. exact I. }
  destruct (Hno Hwmo) as [Hfloat Hprofile].
  split; [exact (Hfloat (PyInt 6902746) [] eq_refl eq_refl)|].
  exact (Hprofile (PyInt 6902746) (PyInt 34)).
Defined.

Lemma data_float_rejects_cycle_keyword_witness :
  dict_in "CYC" [("CYC", PyInt 1)] = true
  ∧ ArgoDataFetcher.float 0 (PyList [PyInt 6902746; PyInt 6902747])
      [("CYC", PyInt 1)] data_fresh
    = (Raise (TypeError "float() got an unexpected keyword argument 'cyc'. Use 'profile' access point to fetch specific profile data."),
       data_fresh).
Proof.
  split; [reflexivity|].
  apply data_float_rejects_cycle_keyword. left. reflexivity.
Defined.

Lemma index_plot_dispatches_on_ptype_witness :
  ArgoIndexFetcher.plot stub_env 0 (Some "dac") index_bound
  = (Ok "dac,index",
     mkWorld (facades index_bound) (fetchers index_bound)
       (trace index_bound ++ [EvPlot "plot_dac" ["index"]]))
  ∧ ArgoIndexFetcher.plot stub_env 0 None index_bound
    = (Ok "trajectory,index,sorted,file",
       mkWorld (facades index_bound) (fetchers index_bound)
         (trace index_bound ++ [EvPlot "plot_trajectory" ["index"; "sorted"; "file"]]))
  ∧ ArgoIndexFetcher.plot stub_env 0 (Some "bogus") index_bound
    = (Raise (ValueError "Type of plot unavailable. Use: 'dac', 'profiler' or 'trajectory' (default)"),
       index_bound).
Proof.
  destruct (index_plot_dispatches_on_ptype stub_env index_bound 0 _ 0 _ ["index"]
              eq_refl eq_refl eq_refl eq_refl)
    as (Hdac & _ & Htraj & Hother).
  split; [exact Hdac|]. split.
  - destruct (Htraj _ eq_refl) as [Hsome Hnone].
    rewrite Hnone. exact Hsome.
  - apply Hother; discriminate.
Defined.

Lemma terminal_calls_require_access_point_witness :
  ArgoDataFetcher.to_xarray 0 [] data_fresh
  = (Raise (InvalidFetcher " Initialize an access point (profile,float,region) first."),
     data_fresh)
  ∧ ArgoIndexFetcher.to_csv stub_env 0 None index_fresh
    = (Raise (InvalidFetcher " Initialize an access point (float,region) first."),
       index_fresh)
  ∧ ArgoDataFetcher.to_dataframe stub_env 0 [] data_bound
    = (Ok ["raw"; "data_mode"; "qc"; "variables:standard"; "frame"], data_bound)
  ∧ ArgoIndexFetcher.to_dataframe 0 [] index_bound = (Ok ["index"], index_bound).
Proof.
  destruct (terminal_calls_require_access_point stub_env)
    as (Hdata & Hindex & Hdata' & Hindex').
  split; [exact (proj1 (Hdata data_fresh 0 _ [] eq_refl eq_refl))|].
  split; [exact (proj2 (proj2 (Hindex index_fresh 0 _ [] None eq_refl eq_refl)))|].
  split.
  - destruct (Hdata' data_fresh data_bound
                (ArgoDataFetcher.Select_float (PyInt 6902746) []) 0 0 [] eq_refl)
      as (f' & o & Hf' & _ & Ho & Hx & Hdf & _).
    vm_compute in Hf'. injection Hf' as <-.
    vm_compute in Ho. injection Ho as <-.
    rewrite Hdf, Hx. reflexivity.
  - destruct (Hindex' index_fresh index_bound
                (ArgoIndexFetcher.Select_float (PyInt 6902746)) 0 0 [] None eq_refl)
      as (f' & o & _ & _ & Ho & Hdf & _).
    vm_compute in Ho. injection Ho as <-. exact Hdf.
Defined.

Lemma access_point_returns_self_and_rebinds_witness :
  ArgoDataFetcher.select (ArgoDataFetcher.Select_float (PyInt 6902746) []) 0
    data_fresh = (Ok 0, data_bound)
  ∧ length (fetchers data_bound) = S (length (fetchers data_fresh))
  ∧ ∃ f, facades (ArgoIndexFetcher.run stub_env
                    (ArgoIndexFetcher.Call_plot 0 (Some "bogus")) index_bound)
           !! 0 = Some f
         ∧ is_Some (ArgoIndexFetcher.fetcher f).
Proof.
  destruct (access_point_returns_self_and_rebinds stub_env)
    as (Hdata & _ & _ & Hindex).
  split; [reflexivity|]. split.
  - destruct (Hdata data_fresh data_bound
                (ArgoDataFetcher.Select_float (PyInt 6902746) []) 0 0 eq_refl)
      as (_ & f & o & explicit & _ & _ & Hfet & _).
    rewrite Hfet, length_app. simpl. lia.
  - apply (Hindex index_bound (ArgoIndexFetcher.Call_plot 0 (Some "bogus")) 0 _
             eq_refl).
    simpl. eauto.
Defined.


Lemma failing_access_point_changes_nothing_witness :
  ArgoDataFetcher.select (ArgoDataFetcher.Select_region (PyList [])) 0
    (ArgoDataFetcher.run stub_env
       (ArgoDataFetcher.Call_init "" "localftp" (Some "") []) empty_world)
  = (Raise (InvalidFetcherAccessPoint "'region' not available with 'localftp' src"),
     ArgoDataFetcher.run stub_env
       (ArgoDataFetcher.Call_init "" "localftp" (Some "") []) empty_world)
  ∧ ∃ e, ArgoDataFetcher.select
           (ArgoDataFetcher.Select_float (PyInt 6902746) [("cyc", PyInt 1)]) 0
           data_bound = (Raise e, data_bound).
Proof.
  destruct (failing_access_point_changes_nothing
              (Dataset:=list string) (Frame:=list string))
    as (_ & Hunsupported & Hcycle & _).
  split.
  - destruct (Hunsupported
                (ArgoDataFetcher.run stub_env
                   (ArgoDataFetcher.Call_init "" "localftp" (Some "") [])
                   empty_world)
                (ArgoDataFetcher.Select_region (PyList [])) 0 _ eq_refl eq_refl)
      as [e He].
    rewrite He. vm_compute in He. injection He as <-. reflexivity.
  - apply Hcycle. right. reflexivity.
Defined.

(** * Further properties of the module *)

(** ** Dictionaries *)

Section DictMore.
Context {V : Type}.
Implicit Types (d : dict V) (k : string) (v : V).

Lemma dict_get_not_in d k : k ∉ keys d → dict_get k d = None.
Proof.
  intros Hk. destruct (dict_get k d) as [v|] eqn:Hget; [|done].
  exfalso. apply Hk. apply dict_in_keys. unfold dict_in.
  apply bool_decide_eq_true. by rewrite Hget.
Qed.


Lemma dict_get_merge d1 d2 k :
  NoDup (keys d2) →
  dict_get k (dict_merge d1 d2)
  = match dict_get k d2 with Some v => Some v | None => dict_get k d1 end.
Proof.
  unfold dict_merge. revert d1.
  induction d2 as [|[k0 v0] d2 IH]; intros d1 Hnd; simpl; [done|].
  unfold keys in Hnd. simpl in Hnd. apply NoDup_cons in Hnd as [Hk0 Hnd].
  rewrite (IH _ Hnd), dict_get_set.
  case_decide; subst; [|done].
  by rewrite (dict_get_not_in d2 k0 Hk0).
Qed.

Lemma keys_dict_set d k v :
  keys (dict_set k v d) = if bool_decide (k ∈ keys d) then keys d else keys d ++ [k].
Proof.
  unfold keys. induction d as [|[k0 v0] d IH]; [done|].
  cbn [dict_set]. destruct (decide (k = k0)) as [->|Hne]; rewrite !fmap_cons.
  - cbn [fst]. by rewrite bool_decide_eq_true_2 by left.
  - rewrite IH. cbn [fst].
    rewrite (bool_decide_ext (k ∈ k0 :: d.*1) (k ∈ d.*1))
      by (rewrite elem_of_cons; split; [intros [?|?]; [congruence|done] | by right]).
    by destruct (bool_decide (k ∈ d.*1)).
Qed.

Lemma NoDup_keys_dict_set d k v : NoDup (keys d) → NoDup (keys (dict_set k v d)).
Proof.
  intros Hnd. rewrite keys_dict_set. case_bool_decide; [done|].
  apply NoDup_app. split; [done|]. split.
  - intros x Hx ->%list_elem_of_singleton. done.
  - apply NoDup_singleton.
Qed.
End DictMore.

(** ** Construction of the data facade *)

Section DataConstruction.
Import ArgoDataFetcher.
Context {Dataset Frame Figure : Type}.
Context (env : Env Dataset Frame Figure).
Implicit Types (w : World (t Dataset) (DataFetcherObj Dataset) Frame).
Implicit Types (f : t Dataset) (self l : loc).

(** [__init__], outcome by outcome. *)
Lemma data_init_outcome mode src ds fetcher_kwargs w :
  let mode' := if decide (mode = "") then OPTIONS env "mode" else mode in
  let dataset_id :=
    if decide (ds = Some "") then Some (OPTIONS env "dataset") else ds in
  let src' := if decide (src = "") then OPTIONS env "src" else src in
  __init__ env mode src ds fetcher_kwargs w =
    match _VALIDATORS env "mode" (PyStr mode') with
    | Raise e => (Raise e, w)
    | Ok _ =>
    match _VALIDATORS env "src" (PyStr src') with
    | Raise e => (Raise e, w)
    | Ok _ =>
    match _VALIDATORS env "dataset" (py_of_ds dataset_id) with
    | Raise e => (Raise e, w)
    | Ok _ =>
    match AVAILABLE_SOURCES env !! src' with
    | None =>
        (Raise (ValueError ("Data fetcher '" +:+ src' +:+ "' not available")), w)
    | Some B =>
        match match ds with
              | Some s => Some s
              | None => head (dataset_ids B)
              end with
        | None => (Raise (IndexError "list index out of range"), w)
        | Some d =>
            (Ok (length (facades w)),
             mkWorld
               (facades w ++
                  [{| _mode := mode'; _dataset_id := dataset_id; _src := src';
                      valid_access_points := ["profile"; "float"; "region"];
                      Fetchers := discover B;
                      fetcher := None;
                      fetcher_options :=
                        dict_merge [("ds", PyStr d)] fetcher_kwargs;
                      postproccessor := empty_processor |}])
               (fetchers w)
               (trace w ++
                  if bool_decide (dataset_id = Some "bgc")
                     && bool_decide (mode' = "standard")
                  then [EvWarn " 'BGC' dataset fetching in 'standard' user mode is not reliable. Try to switch to 'expert' mode if you encounter errors."]
                  else []))
        end
    end end end end.
Proof.
  intros mode' dataset_id src'. unfold __init__.
  fold mode' dataset_id src'.
  unfold mbind at 1, M_bind, lift.
  destruct (_VALIDATORS env "mode" _); [|done].
  unfold mbind at 1, M_bind.
  destruct (_VALIDATORS env "src" _); [|done].
  unfold mbind at 1, M_bind.
  destruct (_VALIDATORS env "dataset" _); [|done].
  destruct (AVAILABLE_SOURCES env !! src') as [B|]; [|done].
  unfold mbind, M_bind, mret, M_ret, new_facade, emit, raise.
  destruct ds as [s|]; simpl.
  - destruct (_ && _); simpl; [done|]. by rewrite app_nil_r.
  - destruct (dataset_ids B) as [|d ids]; simpl; [done|].
    by rewrite app_nil_r.
Qed.

(** What a construction that returns has done. *)
Lemma data_init_success mode src ds fetcher_kwargs w self w' :
  let mode' := if decide (mode = "") then OPTIONS env "mode" else mode in
  let dataset_id :=
    if decide (ds = Some "") then Some (OPTIONS env "dataset") else ds in
  let src' := if decide (src = "") then OPTIONS env "src" else src in
  __init__ env mode src ds fetcher_kwargs w = (Ok self, w') →
  ∃ B d,
    AVAILABLE_SOURCES env !! src' = Some B
    ∧ match ds with Some s => Some s | None => head (dataset_ids B) end = Some d
    ∧ self = length (facades w)
    ∧ w' = mkWorld
             (facades w ++
                [{| _mode := mode'; _dataset_id := dataset_id; _src := src';
                    valid_access_points := ["profile"; "float"; "region"];
                    Fetchers := discover B;
                    fetcher := None;
                    fetcher_options :=
                      dict_merge [("ds", PyStr d)] fetcher_kwargs;
                    postproccessor := empty_processor |}])
             (fetchers w)
             (trace w ++
                if bool_decide (dataset_id = Some "bgc")
                   && bool_decide (mode' = "standard")
                then [EvWarn " 'BGC' dataset fetching in 'standard' user mode is not reliable. Try to switch to 'expert' mode if you encounter errors."]
                else []).
Proof.
  intros mode' dataset_id src'. rewrite data_init_outcome.
  fold mode' dataset_id src'.
  destruct (_VALIDATORS env "mode" _); [|done].
  destruct (_VALIDATORS env "src" _); [|done].
  destruct (_VALIDATORS env "dataset" _); [|done].
  destruct (AVAILABLE_SOURCES env !! src') as [B|]; [|done].
  destruct (match ds with Some s => Some s | None => head (dataset_ids B) end)
    as [d|] eqn:Hd; [|done].
  intros [= <- <-]. by exists B, d.
Qed.

(** X3: a construction that returns has created one facade, at a
    location that was free, unbound and with the identity post-processor;
    mode, source and dataset are the arguments, or the default options for
    the arguments left out; the facades that existed are untouched, and no
    backend fetcher has been constructed. *)
Theorem data_construction_is_lazy mode src ds fetcher_kwargs w self w' :
  __init__ env mode src ds fetcher_kwargs w = (Ok self, w') →
  facades w !! self = None
  ∧ (∀ l f, facades w !! l = Some f → facades w' !! l = Some f)
  ∧ length (facades w') = S (length (facades w))
  ∧ fetchers w' = fetchers w
  ∧ (∀ kw, EvConstruct kw ∈ trace w' → EvConstruct kw ∈ trace w)
  ∧ ∃ f, facades w' !! self = Some f
         ∧ _mode f = (if decide (mode = "") then OPTIONS env "mode" else mode)
         ∧ _src f = (if decide (src = "") then OPTIONS env "src" else src)
         ∧ _dataset_id f
           = (if decide (ds = Some "") then Some (OPTIONS env "dataset") else ds)
         ∧ is_Some (AVAILABLE_SOURCES env !! _src f)
         ∧ fetcher f = None
         ∧ postproccessor f = empty_processor.
Proof.
  intros Hinit.
  apply data_init_success in Hinit as (B & d & HB & _ & -> & ->). simpl.
  split; [by apply lookup_ge_None|].
  split; [intros l f Hl; by apply lookup_app_l_Some|].
  split; [rewrite length_app; simpl; lia|].
  split; [done|]. split.
  - intros kw [Hin|Hin]%elem_of_app; [done|].
    destruct (_ && _).
    + apply list_elem_of_singleton in Hin. discriminate.
    + by apply elem_of_nil in Hin.
  - eexists. split; [by apply list_lookup_middle|]. simpl.
    repeat split; done.
Qed.

(** X4: a construction that returns warns, once, exactly when the dataset
    is 'bgc' and the mode is 'standard' (after the defaults are filled
    in); otherwise it leaves the trace as it was. *)
Theorem data_construction_warns_on_bgc_standard
    mode src ds fetcher_kwargs w self w' :
  let mode' := if decide (mode = "") then OPTIONS env "mode" else mode in
  let dataset_id :=
    if decide (ds = Some "") then Some (OPTIONS env "dataset") else ds in
  __init__ env mode src ds fetcher_kwargs w = (Ok self, w') →
  (dataset_id = Some "bgc" ∧ mode' = "standard" →
   trace w' = trace w ++ [EvWarn " 'BGC' dataset fetching in 'standard' user mode is not reliable. Try to switch to 'expert' mode if you encounter errors."])
  ∧ (¬ (dataset_id = Some "bgc" ∧ mode' = "standard") → trace w' = trace w).
Proof.
  intros mode' dataset_id Hinit.
  apply data_init_success in Hinit as (B & d & _ & _ & _ & ->). simpl.
  fold mode' dataset_id. split.
  - intros [Hds Hmode].
    by rewrite (bool_decide_eq_true_2 _ Hds), (bool_decide_eq_true_2 _ Hmode).
  - intros Hnot.
    destruct (bool_decide (dataset_id = Some "bgc")) eqn:Hds;
      destruct (bool_decide (mode' = "standard")) eqn:Hmode;
      simpl; rewrite ?app_nil_r; try done.
    apply bool_decide_eq_true in Hds, Hmode. by destruct Hnot.
Qed.

(** X5: when [ds] is [None] and the validators and the registry accept
    the construction, the 'ds' option is the first dataset identifier of
    the backend while [_dataset_id] stays [None]; on a backend that
    declares no dataset identifier the construction raises [IndexError]
    and creates nothing. *)
Theorem data_none_dataset_takes_first_id mode src fetcher_kwargs w B :
  let mode' := if decide (mode = "") then OPTIONS env "mode" else mode in
  let src' := if decide (src = "") then OPTIONS env "src" else src in
  _VALIDATORS env "mode" (PyStr mode') = Ok () →
  _VALIDATORS env "src" (PyStr src') = Ok () →
  _VALIDATORS env "dataset" PyNone = Ok () →
  AVAILABLE_SOURCES env !! src' = Some B →
  NoDup (keys fetcher_kwargs) →
  "ds" ∉ keys fetcher_kwargs →
  match head (dataset_ids B) with
  | None =>
      __init__ env mode src None fetcher_kwargs w
      = (Raise (IndexError "list index out of range"), w)
  | Some d =>
      ∃ w' f,
        __init__ env mode src None fetcher_kwargs w = (Ok (length (facades w)), w')
        ∧ facades w' !! length (facades w) = Some f
        ∧ _dataset_id f = None
        ∧ dict_get "ds" (fetcher_options f) = Some (PyStr d)
  end.
Proof.
  intros mode' src' Hmode Hsrc Hds HB Hnd Hnotin.
  rewrite data_init_outcome. fold mode' src'. simpl.
  rewrite Hmode, Hsrc, Hds, HB.
  destruct (head (dataset_ids B)) as [d|]; [|done].
  eexists _, _. split; [done|]. simpl.
  split; [by apply list_lookup_middle|]. split; [done|]. simpl.
  rewrite (dict_get_merge _ _ _ Hnd), (dict_get_not_in _ _ Hnotin). done.
Qed.

(** X6: when [ds] is given and not empty, the facade and the backend agree
    on the dataset: [_dataset_id] is [ds] and the stored option 'ds' is
    [ds]; every backend keyword option of the caller is stored with its
    value. *)
Theorem data_explicit_dataset_is_stored mode src s fetcher_kwargs w self w' :
  s ≠ "" →
  NoDup (keys fetcher_kwargs) →
  "ds" ∉ keys fetcher_kwargs →
  __init__ env mode src (Some s) fetcher_kwargs w = (Ok self, w') →
  ∃ f, facades w' !! self = Some f
       ∧ _dataset_id f = Some s
       ∧ dict_get "ds" (fetcher_options f) = Some (PyStr s)
       ∧ ∀ k v, dict_get k fetcher_kwargs = Some v →
                dict_get k (fetcher_options f) = Some v.
Proof.
  intros Hs Hnd Hnotin Hinit.
  apply data_init_success in Hinit as (B & d & _ & [= <-] & -> & ->). simpl.
  eexists. split; [by apply list_lookup_middle|]. simpl.
  split; [|split].
  - destruct (decide (Some s = Some "")) as [[= ->]|]; done.
  - rewrite (dict_get_merge _ _ _ Hnd), (dict_get_not_in _ _ Hnotin). done.
  - intros k v Hk. by rewrite (dict_get_merge _ _ _ Hnd), Hk.
Qed.
End DataConstruction.

(** ** Behaviour of the data facade *)

Section DataBehaviour.
Import ArgoDataFetcher.
Context {Dataset Frame Figure : Type}.
Context (env : Env Dataset Frame Figure).
Implicit Types (w : World (t Dataset) (DataFetcherObj Dataset) Frame).
Implicit Types (f : t Dataset) (self l : loc).

Lemma data_select_access_point a self w :
  select a self w
  = match a with
    | Select_float _ kw =>
        if dict_in "CYC" kw || dict_in "cyc" kw
        then (Raise (TypeError "float() got an unexpected keyword argument 'cyc'. Use 'profile' access point to fetch specific profile data."), w)
        else access_point (selection_name a) (selection_keywords a) self w
    | _ => access_point (selection_name a) (selection_keywords a) self w
    end.
Proof. destruct a; simpl; [apply data_float_unfold|done|done]. Qed.



(** X11: when a stored option has the name of a keyword the access point
    writes out ('WMO', 'CYC' or 'box'), the access point raises
    [TypeError] and leaves the store as it was: the constructor is not
    called and the facade keeps its binding. *)
Theorem data_access_point_rejects_repeated_keyword a self w f k :
  facades w !! self = Some f →
  is_Some (dict_get (selection_name a) (Fetchers f)) →
  k ∈ keys (selection_keywords a) →
  dict_in k (fetcher_options f) = true →
  ∃ msg, select a self w = (Raise (TypeError msg), w).
Proof.
  intros Hf [ctor Hctor] Hk Hin. rewrite data_select_access_point.
  assert (∃ msg, access_point (selection_name a) (selection_keywords a) self w
                 = (Raise (TypeError msg), w)) as Hap.
  { rewrite (data_access_point_run _ _ _ _ _ Hf), Hctor.
    destruct (find _ _) as [k'|] eqn:Hfind; [by eexists|].
    apply list_elem_of_In in Hk.
    pose proof (List.find_none _ _ Hfind k Hk) as Hnone. simpl in Hnone.
    congruence. }
  destruct a as [wmo kw|wmo cyc|box]; try exact Hap.
  destruct (_ || _); [by eexists|exact Hap].
Qed.

(** X12: an exception of the backend passes through the facade as it is:
    when the retrieval raises, [to_xarray] and [to_dataframe] raise the same
    exception; when the retrieval returns and a filter of the chain raises,
    they raise the exception of the filter; the store is unchanged. *)
Theorem data_backend_errors_propagate self kw w f l o e :
  facades w !! self = Some f →
  fetcher f = Some l →
  fetchers w !! l = Some o →
  (fetch_to_xarray o kw = Raise e
   ∨ ∃ xds, fetch_to_xarray o kw = Ok xds
            ∧ postproccessor f = postprocessing
            ∧ filter_chain o (_mode f) xds = Raise e) →
  to_xarray self kw w = (Raise e, w)
  ∧ to_dataframe env self kw w = (Raise e, w).
Proof.
  intros Hf Hl Ho Hraise.
  assert (to_xarray self kw w = (Raise e, w)) as Hx.
  { rewrite (data_to_xarray_run _ _ _ _ Hf), Hl, Ho.
    destruct Hraise as [->|(xds & -> & -> & Hchain)]; [done|].
    simpl. by rewrite Hchain. }
  split; [done|]. by rewrite data_to_dataframe_run, Hx.
Qed.
End DataBehaviour.

Section DataStore.
Import ArgoDataFetcher.
Context {Dataset Frame Figure : Type}.
Context (env : Env Dataset Frame Figure).
Implicit Types (w : World (t Dataset) (DataFetcherObj Dataset) Frame).
Implicit Types (f : t Dataset) (self l : loc).

(** What a call does to a facade of the store: nothing, or bind it. *)
Lemma data_run_facade c w l f :
  facades w !! l = Some f →
  ∃ f', facades (run env c w) !! l = Some f'
        ∧ (f' = f ∨ ∃ n, f' = bound_to n f).
Proof.
  intros Hl.
  assert (∀ name explicit self,
    ∃ f', facades (access_point name explicit self w).2 !! l = Some f'
          ∧ (f' = f ∨ ∃ n, f' = bound_to n f)) as Hap.
  { intros name explicit self.
    destruct (access_point name explicit self w) as [r w'] eqn:Hrun.
    apply data_access_point_cases in Hrun
      as [(e & _ & Hfac & _)|(f0 & o & ctor & _ & Hf & _ & _ & Hfac & _)];
      simpl; rewrite Hfac.
    - exists f. by split; [|left].
    - destruct (decide (self = l)) as [->|Hne].
      + rewrite list_lookup_insert_eq by by eapply lookup_lt_Some.
        eexists. split; [done|]. right. rewrite Hl in Hf.
        injection Hf as <-. by eexists.
      + rewrite list_lookup_insert_ne by done. exists f. by split; [|left]. }
  destruct c as [mode src ds fkw|limit defined self key|self wmo kw
    |self wmo cyc|self box|self kw|self kw]; simpl.
  - destruct (data_init_run env mode src ds fkw w)
      as [[e ->]|(B & ds' & tr & HB & _ & ->)]; simpl.
    + exists f. by split; [|left].
    + exists f. split; [by apply lookup_app_l_Some|by left].
  - rewrite data_getattr_world. exists f. by split; [|left].
  - rewrite data_float_unfold.
    destruct (_ || _); [exists f; by split; [|left]|]. apply Hap.
  - rewrite data_profile_unfold. apply Hap.
  - rewrite data_region_unfold. apply Hap.
  - rewrite data_to_xarray_world. exists f. by split; [|left].
  - rewrite data_to_dataframe_world. exists f. by split; [|left].
Qed.

(** What a call does to the fetcher instances: nothing, or, for an access
    point, one more. *)
Lemma data_run_fetchers c w :
  fetchers (run env c w) = fetchers w
  ∨ (match c with
     | Call_float _ _ _ | Call_profile _ _ _ | Call_region _ _ => True
     | _ => False
     end
     ∧ ∃ o, fetchers (run env c w) = fetchers w ++ [o]).
Proof.
  assert (∀ name explicit self,
    fetchers (access_point name explicit self w).2 = fetchers w
    ∨ ∃ o, fetchers (access_point name explicit self w).2 = fetchers w ++ [o])
    as Hap.
  { intros name explicit self.
    destruct (access_point name explicit self w) as [r w'] eqn:Hrun.
    apply data_access_point_cases in Hrun
      as [(e & _ & _ & Hfet)|(f0 & o & ctor & _ & _ & _ & _ & _ & Hfet & _)];
      simpl; [by left|right; by exists o]. }
  destruct c as [mode src ds fkw|limit defined self key|self wmo kw
    |self wmo cyc|self box|self kw|self kw]; simpl.
  - destruct (data_init_run env mode src ds fkw w)
      as [[e ->]|(B & ds' & tr & HB & _ & ->)]; by left.
  - rewrite data_getattr_world. by left.
  - rewrite data_float_unfold. destruct (_ || _); [by left|].
    destruct (Hap "float" [("WMO", wmo)] self) as [?|?]; [by left|by right].
  - rewrite data_profile_unfold.
    destruct (Hap "profile" [("WMO", wmo); ("CYC", cyc)] self) as [?|?];
      [by left|by right].
  - rewrite data_region_unfold.
    destruct (Hap "region" [("box", box)] self) as [?|?]; [by left|by right].
  - rewrite data_to_xarray_world. by left.
  - rewrite data_to_dataframe_world. by left.
Qed.

Lemma data_discover_NoDup (B : Backend Dataset Frame) :
  NoDup (keys (discover B)).
Proof.
  unfold discover.
  assert (∀ (aps : list string) d,
    NoDup (keys d) →
    NoDup (keys (foldl (λ d p,
             let d :=
               if decide (p = "wmo")
               then dict_set "float" (Fetch_wmo B)
                      (dict_set "profile" (Fetch_wmo B) d)
               else d in
             if decide (p = "box")
             then dict_set "region" (Fetch_box B) d
             else d) d aps))) as Hgen.
  { induction aps as [|p aps IH]; intros d Hnd; simpl; [done|].
    apply IH. repeat case_decide; by repeat apply NoDup_keys_dict_set. }
  apply Hgen. apply NoDup_nil_2.
Qed.

(** On a facade of a reachable store every name [__getattr__] lets
    through is found by the normal lookup. *)
Lemma data_getattr_constructed w self f limit key :
  reachable env w →
  facades w !! self = Some f →
  getattr limit (class_attrs ++ instance_attrs ++ object_attrs) self key w
  = if bool_decide (key ∈ class_attrs ++ instance_attrs ++ object_attrs)
    then (Ok (Defined key), w)
    else (Raise (InvalidFetcherAccessPoint
                   ("'" +:+ key +:+ "' is not a valid access point")), w).
Proof.
  intros Hreach Hf.
  destruct (data_reachable_ok env w Hreach self f Hf) as (_ & Hvap & _).
  case_bool_decide as Hdef; [by apply data_getattr_defined|].
  assert ("valid_access_points" ∈ class_attrs ++ instance_attrs ++ object_attrs)
    as Hlist.
  { apply (bool_decide_unpack _). by vm_compute. }
  rewrite data_getattr_fallback, Hf, Hvap by done.
  rewrite !bool_decide_eq_true_2; [done| |].
  - intros Hin. apply Hdef. rewrite !elem_of_app. right. left.
    unfold instance_attrs. rewrite !elem_of_cons in Hin.
    rewrite !elem_of_cons. tauto.
  - intros Hin. apply Hdef. rewrite !elem_of_app. left.
    unfold class_attrs. rewrite !elem_of_cons in Hin.
    rewrite !elem_of_cons. tauto.
Qed.

Lemma data_repr_run fetcher_repr self w f :
  facades w !! self = Some f →
  __repr__ fetcher_repr self w =
    match fetcher f with
    | None =>
        (Ok (join newline
               ["<datafetcher 'Not initialised'>";
                "Backend: " +:+ _src f;
                "Fetchers: " +:+ join ", " (keys (Fetchers f));
                "User mode: " +:+ _mode f]), w)
    | Some l =>
        match fetchers w !! l with
        | None => (Raise (AttributeError "dangling reference"), w)
        | Some o =>
            (r ← fetcher_repr o ;
             Ok (join newline
                   [r; "Backend: " +:+ _src f; "User mode: " +:+ _mode f]), w)
        end
    end.
Proof.
  intros Hf. unfold __repr__, mbind at 1, M_bind.
  rewrite (deref_Some _ _ _ Hf).
  destruct (fetcher f) as [l|]; [|done].
  unfold mbind, M_bind, deref_fetcher, lift.
  destruct (fetchers w !! l) as [o|]; [|done].
  by destruct (fetcher_repr o).
Qed.
End DataStore.

(** ** The index facade, further *)

Section IndexStore.
Import ArgoIndexFetcher.
Context {Dataset Frame Figure : Type}.
Context (env : Env Dataset Frame Figure).
Implicit Types
  (w : World (t Dataset Frame) (IndexFetcherObj Dataset Frame) Frame).
Implicit Types (f : t Dataset Frame) (self l : loc).

Lemma index_init_outcome mode src fetcher_kwargs w :
  let mode' := if decide (mode = "") then OPTIONS env "mode" else mode in
  let src' := if decide (src = "") then OPTIONS env "src" else src in
  __init__ env mode src fetcher_kwargs w =
    match _VALIDATORS env "mode" (PyStr mode') with
    | Raise e => (Raise e, w)
    | Ok _ =>
    match _VALIDATORS env "src" (PyStr src') with
    | Raise e => (Raise e, w)
    | Ok _ =>
    match AVAILABLE_SOURCES env !! src' with
    | None => (Raise (ValueError ("Fetcher '" +:+ src' +:+ "' not available")), w)
    | Some B =>
        (Ok (length (facades w)),
         mkWorld
           (facades w ++
              [{| _mode := mode'; _src := src';
                  valid_access_points := ["float"; "region"];
                  Fetchers := discover B;
                  fetcher := None;
                  fetcher_options := dict_merge [] fetcher_kwargs;
                  postproccessor := empty_processor |}])
           (fetchers w) (trace w))
    end end end.
Proof.
  intros mode' src'. unfold __init__. fold mode' src'.
  unfold mbind at 1, M_bind, lift.
  destruct (_VALIDATORS env "mode" _); [|done].
  unfold mbind at 1, M_bind.
  destruct (_VALIDATORS env "src" _); [|done].
  by destruct (AVAILABLE_SOURCES env !! src').
Qed.

(** Where a facade of the store after a call comes from: it was there,
    possibly unbound or bound to another instance, or the call was the
    constructor and the facade is new. *)
Lemma index_run_facade_origin c w l f' :
  facades (run env c w) !! l = Some f' →
  (∃ f, facades w !! l = Some f ∧ (f' = f ∨ ∃ n, f' = set_fetcher n f))
  ∨ (facades w !! l = None ∧ postproccessor f' = empty_processor).
Proof.
  assert (∀ name explicit self,
    facades (access_point name explicit self w).2 !! l = Some f' →
    ∃ f, facades w !! l = Some f ∧ (f' = f ∨ ∃ n, f' = set_fetcher n f))
    as Hap.
  { intros name explicit self.
    destruct (access_point name explicit self w) as [r w'] eqn:Hrun.
    apply index_access_point_cases in Hrun
      as [(e & _ & Hfac & _)|(f0 & o & ctor & _ & Hf & _ & _ & Hfac & _)];
      simpl; rewrite Hfac; intros Hl.
    - exists f'. by split; [|left].
    - destruct (decide (self = l)) as [->|Hne].
      + rewrite list_lookup_insert_eq in Hl by by eapply lookup_lt_Some.
        injection Hl as <-. exists f0. split; [done|]. right. by eexists.
      + rewrite list_lookup_insert_ne in Hl by done.
        exists f'. by split; [|left]. }
  assert (facades w !! l = Some f' →
          ∃ f, facades w !! l = Some f ∧ (f' = f ∨ ∃ n, f' = set_fetcher n f))
    as Hsame.
  { intros Hl. exists f'. by split; [|left]. }
  destruct c as [mode src fkw|limit defined self key|self wmo
    |self box|self kw|self kw|self file|self ptype]; simpl.
  - destruct (index_init_run env mode src fkw w) as [[e ->]|(B & HB & ->)];
      simpl; intros Hl; [left; by apply Hsame|].
    apply lookup_app_Some in Hl as [Hl|[Hge Hl]]; [left; by apply Hsame|].
    right. apply list_lookup_singleton_Some in Hl as [_ <-].
    split; [by apply lookup_ge_None|done].
  - rewrite index_getattr_world. intros Hl. left. by apply Hsame.
  - rewrite index_float_unfold. intros Hl. left. by eapply Hap.
  - rewrite index_region_unfold. intros Hl. left. by eapply Hap.
  - rewrite index_to_dataframe_world. intros Hl. left. by apply Hsame.
  - rewrite index_to_xarray_world. intros Hl. left. by apply Hsame.
  - rewrite index_to_csv_world. intros Hl. left. by apply Hsame.
  - destruct (index_plot_world env self ptype w) as [-> _].
    intros Hl. left. by apply Hsame.
Qed.

Lemma index_run_facade c w l f :
  facades w !! l = Some f →
  ∃ f', facades (run env c w) !! l = Some f'
        ∧ (f' = f ∨ ∃ n, f' = set_fetcher n f).
Proof.
  intros Hl.
  destruct (index_run_bound env c w l f Hl) as (f' & Hf' & _).
  exists f'. split; [done|].
  destruct (index_run_facade_origin c w l f' Hf')
    as [(f0 & Hf0 & Hor)|[Hnone _]]; [|congruence].
  rewrite Hl in Hf0. by injection Hf0 as <-.
Qed.

Lemma index_run_fetchers c w :
  fetchers (run env c w) = fetchers w
  ∨ (match c with
     | Call_float _ _ | Call_region _ _ => True
     | _ => False
     end
     ∧ ∃ o, fetchers (run env c w) = fetchers w ++ [o]).
Proof.
  assert (∀ name explicit self,
    fetchers (access_point name explicit self w).2 = fetchers w
    ∨ ∃ o, fetchers (access_point name explicit self w).2 = fetchers w ++ [o])
    as Hap.
  { intros name explicit self.
    destruct (access_point name explicit self w) as [r w'] eqn:Hrun.
    apply index_access_point_cases in Hrun
      as [(e & _ & _ & Hfet)|(f0 & o & ctor & _ & _ & _ & _ & _ & Hfet & _)];
      simpl; [by left|right; by exists o]. }
  destruct c as [mode src fkw|limit defined self key|self wmo
    |self box|self kw|self kw|self file|self ptype]; simpl.
  - destruct (index_init_run env mode src fkw w) as [[e ->]|(B & HB & ->)];
      by left.
  - rewrite index_getattr_world. by left.
  - rewrite index_float_unfold.
    destruct (Hap "float" [("WMO", wmo)] self) as [?|?]; [by left|by right].
  - rewrite index_region_unfold.
    destruct (Hap "region" [("box", box)] self) as [?|?]; [by left|by right].
  - rewrite index_to_dataframe_world. by left.
  - rewrite index_to_xarray_world. by left.
  - rewrite index_to_csv_world. by left.
  - destruct (index_plot_world env self ptype w) as [_ ->]. by left.
Qed.

Lemma index_discover_NoDup (B : Backend Dataset Frame) :
  NoDup (keys (discover B)).
Proof.
  unfold discover.
  assert (∀ (aps : list string) d,
    NoDup (keys d) →
    NoDup (keys (foldl (λ d p,
             let d :=
               if decide (p = "wmo")
               then dict_set "float" (IndexFetcher_wmo B) d
               else d in
             if decide (p = "box")
             then dict_set "region" (IndexFetcher_box B) d
             else d) d aps))) as Hgen.
  { induction aps as [|p aps IH]; intros d Hnd; simpl; [done|].
    apply IH. repeat case_decide; by repeat apply NoDup_keys_dict_set. }
  apply Hgen. apply NoDup_nil_2.
Qed.

Lemma index_discover_keys (B : Backend Dataset Frame) k :
  k ∈ keys (discover B)
  ↔ k = "float" ∧ "wmo" ∈ access_points B
    ∨ k = "region" ∧ "box" ∈ access_points B.
Proof.
  rewrite <- dict_in_keys, index_discover_in.
  rewrite orb_true_iff, !andb_true_iff, !bool_decide_eq_true. done.
Qed.

Lemma index_getattr_constructed w self f limit key :
  reachable env w →
  facades w !! self = Some f →
  getattr limit (class_attrs ++ instance_attrs ++ object_attrs) self key w
  = if bool_decide (key ∈ class_attrs ++ instance_attrs ++ object_attrs)
    then (Ok (Defined key), w)
    else (Raise (InvalidFetcherAccessPoint
                   ("'" +:+ key +:+ "' is not a valid access point")), w).
Proof.
  intros Hreach Hf.
  destruct (index_reachable_ok env w Hreach self f Hf) as (_ & Hvap & _).
  case_bool_decide as Hdef; [by apply index_getattr_defined|].
  assert ("valid_access_points" ∈ class_attrs ++ instance_attrs ++ object_attrs)
    as Hlist.
  { apply (bool_decide_unpack _). by vm_compute. }
  rewrite index_getattr_fallback, Hf, Hvap by done.
  rewrite !bool_decide_eq_true_2; [done| |].
  - intros Hin. apply Hdef. rewrite !elem_of_app. right. left.
    unfold instance_attrs. rewrite !elem_of_cons in Hin.
    rewrite !elem_of_cons. tauto.
  - intros Hin. apply Hdef. rewrite !elem_of_app. left.
    unfold class_attrs. rewrite !elem_of_cons in Hin.
    rewrite !elem_of_cons. tauto.
Qed.

Lemma index_repr_run fetcher_repr self w f :
  facades w !! self = Some f →
  __repr__ fetcher_repr self w =
    match fetcher f with
    | None =>
        (Ok (join newline
               ["<indexfetcher 'Not initialised'>";
                "Fetchers: 'float' or 'region'";
                "User mode: " +:+ _mode f]), w)
    | Some l =>
        match fetchers w !! l with
        | None => (Raise (AttributeError "dangling reference"), w)
        | Some o =>
            (r ← fetcher_repr o ;
             Ok (join newline [r; "User mode: " +:+ _mode f]), w)
        end
    end.
Proof.
  intros Hf. unfold __repr__, mbind at 1, M_bind.
  rewrite (deref_Some _ _ _ Hf).
  destruct (fetcher f) as [l|]; [|done].
  unfold mbind, M_bind, deref_fetcher, lift.
  destruct (fetchers w !! l) as [o|]; [|done].
  by destruct (fetcher_repr o).
Qed.

(** X13: [plot] fetches the index before it looks at the plot type: on an
    unbound facade it raises the [InvalidFetcher] of [to_dataframe], and
    when the backend fails to deliver the index it raises the backend's
    exception, for every plot type, an unknown one included; no plotter
    is called. *)
Theorem index_plot_fetches_before_dispatch self w f ptype :
  facades w !! self = Some f →
  match fetcher f with
  | None => plot env self ptype w = (Raise (not_initialised f), w)
  | Some l =>
      ∀ o e, fetchers w !! l = Some o →
             index_to_dataframe o [] = Raise e →
             plot env self ptype w = (Raise e, w)
  end.
Proof.
  intros Hf. destruct (fetcher f) as [l|] eqn:Hl.
  - intros o e Ho He. unfold plot, mbind at 1, M_bind.
    by rewrite (index_to_dataframe_run _ _ _ _ Hf), Hl, Ho, He.
  - unfold plot, mbind at 1, M_bind.
    by rewrite (index_to_dataframe_run _ _ _ _ Hf), Hl.
Qed.

(** X18: a facade of a reachable store keeps the identity post-processor
    in every mode, 'standard' included: [to_xarray] and [to_dataframe] hand
    back what the bound index fetcher returns. *)
Theorem index_never_postprocesses w self f :
  reachable env w →
  facades w !! self = Some f →
  postproccessor f = empty_processor
  ∧ ∀ l o kw,
      fetcher f = Some l → fetchers w !! l = Some o →
      to_xarray self kw w = (index_to_xarray o kw, w)
      ∧ to_dataframe self kw w = (index_to_dataframe o kw, w).
Proof.
  intros Hreach Hf. split.
  - revert self f Hf.
    induction Hreach as [|w c _ IH]; intros self f Hf.
    + simpl in Hf. by rewrite lookup_nil in Hf.
    + apply index_run_facade_origin in Hf
        as [(f0 & Hf0 & [->|[n ->]])|[_ Hpp]]; [| |done].
      * by eapply IH.
      * simpl. by eapply IH.
  - intros l o kw Hl Ho.
    rewrite (index_to_xarray_run _ _ _ _ Hf), Hl, Ho.
    by rewrite (index_to_dataframe_run _ _ _ _ Hf), Hl, Ho.
Qed.
End IndexStore.

(** ** Both facades, further *)

Section FacadeMore.
Context {Dataset Frame Figure : Type}.
Context (env : Env Dataset Frame Figure).

Abbreviation data_world :=
  (World (ArgoDataFetcher.t Dataset) (DataFetcherObj Dataset) Frame).
Abbreviation index_world :=
  (World (ArgoIndexFetcher.t Dataset Frame)
     (IndexFetcherObj Dataset Frame) Frame).

(** X1: when the validators accept the options and the source is not a key
    of [AVAILABLE_SOURCES], both constructors raise [ValueError] with a
    message that names the source, and create nothing. *)
Theorem construction_rejects_unregistered_source mode src ds fetcher_kwargs :
  let mode' := if decide (mode = "") then OPTIONS env "mode" else mode in
  let dataset_id :=
    if decide (ds = Some "") then Some (OPTIONS env "dataset") else ds in
  let src' := if decide (src = "") then OPTIONS env "src" else src in
  _VALIDATORS env "mode" (PyStr mode') = Ok () →
  _VALIDATORS env "src" (PyStr src') = Ok () →
  AVAILABLE_SOURCES env !! src' = None →
  (∀ w : data_world,
     _VALIDATORS env "dataset" (py_of_ds dataset_id) = Ok () →
     ArgoDataFetcher.__init__ env mode src ds fetcher_kwargs w
     = (Raise (ValueError ("Data fetcher '" +:+ src' +:+ "' not available")), w))
  ∧ (∀ w : index_world,
       ArgoIndexFetcher.__init__ env mode src fetcher_kwargs w
       = (Raise (ValueError ("Fetcher '" +:+ src' +:+ "' not available")), w)).
Proof.
  intros mode' dataset_id src' Hmode Hsrc Hnone. split.
  - intros w Hds. rewrite data_init_outcome.
    fold mode' dataset_id src'. by rewrite Hmode, Hsrc, Hds, Hnone.
  - intros w. rewrite index_init_outcome.
    fold mode' src'. by rewrite Hmode, Hsrc, Hnone.
Qed.

(** X2: validation comes first: when the validator of the mode raises, or
    it accepts and the validator of the source raises, both constructors
    raise that exception, whether or not the source is registered, and
    create nothing; the data constructor does the same for the validator
    of the dataset. *)
Theorem construction_validates_first mode src ds fetcher_kwargs e :
  let mode' := if decide (mode = "") then OPTIONS env "mode" else mode in
  let dataset_id :=
    if decide (ds = Some "") then Some (OPTIONS env "dataset") else ds in
  let src' := if decide (src = "") then OPTIONS env "src" else src in
  (_VALIDATORS env "mode" (PyStr mode') = Raise e
   ∨ _VALIDATORS env "mode" (PyStr mode') = Ok ()
     ∧ _VALIDATORS env "src" (PyStr src') = Raise e →
   (∀ w : data_world,
      ArgoDataFetcher.__init__ env mode src ds fetcher_kwargs w = (Raise e, w))
   ∧ (∀ w : index_world,
        ArgoIndexFetcher.__init__ env mode src fetcher_kwargs w = (Raise e, w)))
  ∧ (_VALIDATORS env "mode" (PyStr mode') = Ok () →
     _VALIDATORS env "src" (PyStr src') = Ok () →
     _VALIDATORS env "dataset" (py_of_ds dataset_id) = Raise e →
     ∀ w : data_world,
       ArgoDataFetcher.__init__ env mode src ds fetcher_kwargs w = (Raise e, w)).
Proof.
  intros mode' dataset_id src'. split.
  - intros Hraise. split; intros w.
    + rewrite data_init_outcome. fold mode' dataset_id src'.
      by destruct Hraise as [->|[-> ->]].
    + rewrite index_init_outcome. fold mode' src'.
      by destruct Hraise as [->|[-> ->]].
  - intros Hmode Hsrc Hds w. rewrite data_init_outcome.
    fold mode' dataset_id src'. by rewrite Hmode, Hsrc, Hds.
Qed.

(** X8: the configuration of a facade is fixed at construction: whatever
    call is made on whatever facade, a facade of the store keeps its mode,
    source, dataset, access points, constructors and backend options. *)
Theorem configuration_is_immutable :
  (∀ (w : data_world) c l f,
     facades w !! l = Some f →
     ∃ f', facades (ArgoDataFetcher.run env c w) !! l = Some f'
           ∧ ArgoDataFetcher._mode f' = ArgoDataFetcher._mode f
           ∧ ArgoDataFetcher._dataset_id f' = ArgoDataFetcher._dataset_id f
           ∧ ArgoDataFetcher._src f' = ArgoDataFetcher._src f
           ∧ ArgoDataFetcher.valid_access_points f'
             = ArgoDataFetcher.valid_access_points f
           ∧ ArgoDataFetcher.Fetchers f' = ArgoDataFetcher.Fetchers f
           ∧ ArgoDataFetcher.fetcher_options f'
             = ArgoDataFetcher.fetcher_options f)
  ∧ (∀ (w : index_world) c l f,
       facades w !! l = Some f →
       ∃ f', facades (ArgoIndexFetcher.run env c w) !! l = Some f'
             ∧ ArgoIndexFetcher._mode f' = ArgoIndexFetcher._mode f
             ∧ ArgoIndexFetcher._src f' = ArgoIndexFetcher._src f
             ∧ ArgoIndexFetcher.valid_access_points f'
               = ArgoIndexFetcher.valid_access_points f
             ∧ ArgoIndexFetcher.Fetchers f' = ArgoIndexFetcher.Fetchers f
             ∧ ArgoIndexFetcher.fetcher_options f'
               = ArgoIndexFetcher.fetcher_options f).
Proof.
  split; intros w c l f Hl.
  - destruct (data_run_facade env c w l f Hl) as (f' & Hf' & [->|[n ->]]);
      eexists; (split; [exact Hf'|]); [done|].
    unfold ArgoDataFetcher.bound_to.
    by destruct (ArgoDataFetcher.standard_applies _).
  - destruct (index_run_facade env c w l f Hl) as (f' & Hf' & [->|[n ->]]);
      eexists; (split; [exact Hf'|]); done.
Qed.

(** X9: an access point called on one facade does not touch another
    facade, and no call replaces or removes a fetcher instance that is in
    the store. *)
Theorem facades_are_independent :
  (∀ (w : data_world) a self l,
     l ≠ self →
     facades (ArgoDataFetcher.select a self w).2 !! l = facades w !! l)
  ∧ (∀ (w : index_world) a self l,
       l ≠ self →
       facades (ArgoIndexFetcher.select a self w).2 !! l = facades w !! l)
  ∧ (∀ (w : data_world) c i o,
       fetchers w !! i = Some o →
       fetchers (ArgoDataFetcher.run env c w) !! i = Some o)
  ∧ (∀ (w : index_world) c i o,
       fetchers w !! i = Some o →
       fetchers (ArgoIndexFetcher.run env c w) !! i = Some o).
Proof.
  split; [|split; [|split]].
  - intros w a self l Hne.
    destruct (ArgoDataFetcher.select a self w) as [r w'] eqn:Hsel.
    apply data_select_cases in Hsel
      as [(e & _ & Hfac & _)|(f & o & explicit & _ & _ & Hfac & _)];
      simpl; rewrite Hfac; [done|].
    by apply list_lookup_insert_ne.
  - intros w a self l Hne.
    destruct (ArgoIndexFetcher.select a self w) as [r w'] eqn:Hsel.
    apply index_select_cases in Hsel
      as [(e & _ & Hfac & _)|(f & o & explicit & _ & _ & Hfac & _)];
      simpl; rewrite Hfac; [done|].
    by apply list_lookup_insert_ne.
  - intros w c i o Hi.
    destruct (data_run_fetchers env c w) as [->|(_ & o' & ->)]; [done|].
    by apply lookup_app_l_Some.
  - intros w c i o Hi.
    destruct (index_run_fetchers env c w) as [->|(_ & o' & ->)]; [done|].
    by apply lookup_app_l_Some.
Qed.

(** X10: fetcher instances are created by the access points only, one per
    call: the constructors of the facades, attribute accesses, terminal
    retrievals and [plot] leave the fetcher instances as they are. *)
Theorem only_access_points_construct_fetchers :
  (∀ (w : data_world) c,
     fetchers (ArgoDataFetcher.run env c w) = fetchers w
     ∨ (match c with
        | ArgoDataFetcher.Call_float _ _ _
        | ArgoDataFetcher.Call_profile _ _ _
        | ArgoDataFetcher.Call_region _ _ => True
        | _ => False
        end
        ∧ ∃ o, fetchers (ArgoDataFetcher.run env c w) = fetchers w ++ [o]))
  ∧ (∀ (w : index_world) c,
       fetchers (ArgoIndexFetcher.run env c w) = fetchers w
       ∨ (match c with
          | ArgoIndexFetcher.Call_float _ _
          | ArgoIndexFetcher.Call_region _ _ => True
          | _ => False
          end
          ∧ ∃ o, fetchers (ArgoIndexFetcher.run env c w) = fetchers w ++ [o])).
Proof.
  split; intros w c;
    [apply data_run_fetchers|apply index_run_fetchers].
Qed.

(** X14: on a facade as the constructor made it, an attribute access
    either finds the attribute or raises [InvalidFetcherAccessPoint]:
    every name [__getattr__] would answer with [None] is an attribute of
    the object, so [None] is never the outcome. *)
Theorem attribute_access_on_constructed_facade :
  (∀ (w : data_world) self f limit key,
     ArgoDataFetcher.reachable env w →
     facades w !! self = Some f →
     ArgoDataFetcher.getattr limit
       (ArgoDataFetcher.class_attrs ++ ArgoDataFetcher.instance_attrs
          ++ object_attrs) self key w
     = if bool_decide (key ∈ ArgoDataFetcher.class_attrs
                         ++ ArgoDataFetcher.instance_attrs ++ object_attrs)
       then (Ok (Defined key), w)
       else (Raise (InvalidFetcherAccessPoint
                      ("'" +:+ key +:+ "' is not a valid access point")), w))
  ∧ (∀ (w : index_world) self f limit key,
       ArgoIndexFetcher.reachable env w →
       facades w !! self = Some f →
       ArgoIndexFetcher.getattr limit
         (ArgoIndexFetcher.class_attrs ++ ArgoIndexFetcher.instance_attrs
            ++ object_attrs) self key w
       = if bool_decide (key ∈ ArgoIndexFetcher.class_attrs
                           ++ ArgoIndexFetcher.instance_attrs ++ object_attrs)
         then (Ok (Defined key), w)
         else (Raise (InvalidFetcherAccessPoint
                        ("'" +:+ key +:+ "' is not a valid access point")), w)).
Proof.
  split; intros w self f limit key Hreach Hf;
    [by eapply data_getattr_constructed|by eapply index_getattr_constructed].
Qed.

(** X15: whatever the backend lists in [access_points] (tags repeated, in
    any order, or unknown), [Fetchers] has each access point at most once
    and nothing else: at most three keys on the data facade, two on the
    index facade. *)
Theorem discovery_tolerates_any_capability_list (B : Backend Dataset Frame) :
  NoDup (keys (ArgoDataFetcher.discover B))
  ∧ keys (ArgoDataFetcher.discover B) ⊆ ["profile"; "float"; "region"]
  ∧ length (keys (ArgoDataFetcher.discover B)) ≤ 3
  ∧ NoDup (keys (ArgoIndexFetcher.discover B))
  ∧ keys (ArgoIndexFetcher.discover B) ⊆ ["float"; "region"]
  ∧ length (keys (ArgoIndexFetcher.discover B)) ≤ 2.
Proof.
  assert (keys (ArgoDataFetcher.discover B) ⊆ ["profile"; "float"; "region"])
    as Hdata.
  { intros k. rewrite data_discover_keys, !elem_of_cons. tauto. }
  assert (keys (ArgoIndexFetcher.discover B) ⊆ ["float"; "region"]) as Hindex.
  { intros k. rewrite index_discover_keys, !elem_of_cons. tauto. }
  pose proof (data_discover_NoDup B) as Hnd.
  pose proof (index_discover_NoDup B) as Hni.
  split; [done|]. split; [done|]. split.
  - apply (submseteq_length _ ["profile"; "float"; "region"]).
    by apply NoDup_submseteq.
  - split; [done|]. split; [done|].
    apply (submseteq_length _ ["float"; "region"]).
    by apply NoDup_submseteq.
Qed.

(** X16: [__repr__] of the data facade reads the store and leaves it as it
    is.  Unbound, it never fails and shows 'Not initialised', the backend,
    the keys of [Fetchers] and the mode, one per line; bound, it shows the
    fetcher's own representation, the backend and the mode, and fails only
    if the fetcher's [__repr__] does. *)
Theorem data_repr_summary fetcher_repr (w : data_world) self f :
  facades w !! self = Some f →
  (ArgoDataFetcher.__repr__ fetcher_repr self w).2 = w
  ∧ match ArgoDataFetcher.fetcher f with
    | None =>
        (ArgoDataFetcher.__repr__ fetcher_repr self w).1
        = Ok ("<datafetcher 'Not initialised'>" +:+ newline
              +:+ "Backend: " +:+ ArgoDataFetcher._src f +:+ newline
              +:+ "Fetchers: "
              +:+ join ", " (keys (ArgoDataFetcher.Fetchers f)) +:+ newline
              +:+ "User mode: " +:+ ArgoDataFetcher._mode f)
    | Some l =>
        ∀ o, fetchers w !! l = Some o →
             (ArgoDataFetcher.__repr__ fetcher_repr self w).1
             = (r ← fetcher_repr o ;
                Ok (r +:+ newline
                    +:+ "Backend: " +:+ ArgoDataFetcher._src f +:+ newline
                    +:+ "User mode: " +:+ ArgoDataFetcher._mode f))
    end.
Proof.
  intros Hf. rewrite (data_repr_run _ _ _ _ Hf).
  destruct (ArgoDataFetcher.fetcher f) as [l|].
  - split; [by destruct (fetchers w !! l)|].
    intros o ->. simpl. by destruct (fetcher_repr o).
  - done.
Qed.

(** X17: [__repr__] of an unbound index facade shows the fixed line
    "Fetchers: 'float' or 'region'" whatever access points the backend
    supports: it depends on the mode only, never fails and leaves the store
    as it is. *)
Theorem index_repr_ignores_backend fetcher_repr (w : index_world) self f :
  facades w !! self = Some f →
  ArgoIndexFetcher.fetcher f = None →
  ArgoIndexFetcher.__repr__ fetcher_repr self w
  = (Ok ("<indexfetcher 'Not initialised'>" +:+ newline
         +:+ "Fetchers: 'float' or 'region'" +:+ newline
         +:+ "User mode: " +:+ ArgoIndexFetcher._mode f), w).
Proof.
  intros Hf Hnone. by rewrite (index_repr_run _ _ _ _ Hf), Hnone.
Qed.
End FacadeMore.

(** ** The further properties at work *)

Lemma construction_rejects_unregistered_source_witness :
  ArgoDataFetcher.__init__ lenient_env "" "argovis" (Some "") [] empty_world
  = (Raise (ValueError "Data fetcher 'argovis' not available"), empty_world)
  ∧ ArgoIndexFetcher.__init__ lenient_env "" "argovis" [] empty_world
    = (Raise (ValueError "Fetcher 'argovis' not available"), empty_world).
Proof.
  destruct (construction_rejects_unregistered_source lenient_env
              "" "argovis" (Some "") [] eq_refl eq_refl eq_refl)
    as [Hdata Hindex].
  split; [exact (Hdata empty_world eq_refl)|exact (Hindex empty_world)].
Defined.

Lemma construction_validates_first_witness :
  ArgoDataFetcher.__init__ stub_env "bogus" "argovis" (Some "") [] empty_world
  = (Raise (ValueError "invalid value for option mode"), empty_world)
  ∧ ArgoDataFetcher.__init__ stub_env "" "" (Some "dmqc") [] empty_world
    = (Raise (ValueError "invalid value for option dataset"), empty_world).
Proof.
  split.
  - destruct (construction_validates_first stub_env "bogus" "argovis" (Some "")
                [] (ValueError "invalid value for option mode")) as [H _].
    destruct (H (or_introl eq_refl)) as [Hdata _]. exact (Hdata empty_world).
  - destruct (construction_validates_first stub_env "" "" (Some "dmqc")
                [] (ValueError "invalid value for option dataset")) as [_ H].
    exact (H eq_refl eq_refl eq_refl empty_world).
Defined.

Lemma data_construction_is_lazy_witness :
  ArgoDataFetcher.__init__ stub_env "" "" (Some "") [] empty_world
  = (Ok 0, data_fresh)
  ∧ fetchers data_fresh = []
  ∧ length (facades data_fresh) = 1.
Proof.
  split; [reflexivity|].
  destruct (data_construction_is_lazy stub_env "" "" (Some "") []
              empty_world 0 data_fresh eq_refl)
    as (_ & _ & Hlen & Hfet & _).
  split; [exact Hfet|exact Hlen].
Defined.

Lemma data_construction_warns_on_bgc_standard_witness :
  trace (ArgoDataFetcher.run stub_env
           (ArgoDataFetcher.Call_init "" "" (Some "bgc") []) empty_world)
  = [EvWarn " 'BGC' dataset fetching in 'standard' user mode is not reliable. Try to switch to 'expert' mode if you encounter errors."]
  ∧ trace (ArgoDataFetcher.run stub_env
             (ArgoDataFetcher.Call_init "expert" "" (Some "bgc") []) empty_world)
    = [].
Proof.
  split.
  - destruct (data_construction_warns_on_bgc_standard stub_env
                "" "" (Some "bgc") [] empty_world 0 _ eq_refl) as [Hwarn _].
    exact (Hwarn (conj eq_refl eq_refl)).
  - destruct (data_construction_warns_on_bgc_standard stub_env
                "expert" "" (Some "bgc") [] empty_world 0 _ eq_refl)
      as [_ Hquiet].
    apply Hquiet. intros [_ Hmode]. discriminate Hmode.
Defined.

Lemma data_none_dataset_takes_first_id_witness :
  ArgoDataFetcher.__init__ lenient_env "" "nodataset" None [] empty_world
  = (Raise (IndexError "list index out of range"), empty_world)
  ∧ ∃ w' f,
      ArgoDataFetcher.__init__ lenient_env "" "" None [] empty_world = (Ok 0, w')
      ∧ facades w' !! 0 = Some f
      ∧ ArgoDataFetcher._dataset_id f = None
      ∧ dict_get "ds" (ArgoDataFetcher.fetcher_options f) = Some (PyStr "phy").
Proof.
  assert (NoDup (keys ([] : kwargs))) as Hnd by apply NoDup_nil_2.
  assert ("ds" ∉ keys ([] : kwargs)) as Hnotin by apply not_elem_of_nil.
  split.
  - exact (data_none_dataset_takes_first_id lenient_env "" "nodataset" []
             empty_world _ eq_refl eq_refl eq_refl eq_refl Hnd Hnotin).
  - exact (data_none_dataset_takes_first_id lenient_env "" "" []
             empty_world _ eq_refl eq_refl eq_refl eq_refl Hnd Hnotin).
Defined.

Lemma data_explicit_dataset_is_stored_witness :
  ∃ f, facades (ArgoDataFetcher.run stub_env
                  (ArgoDataFetcher.Call_init "" "" (Some "ref")
                     [("cachedir", PyStr "tmp"); ("cache", PyBool true)])
                  empty_world) !! 0 = Some f
       ∧ ArgoDataFetcher._dataset_id f = Some "ref"
       ∧ dict_get "ds" (ArgoDataFetcher.fetcher_options f) = Some (PyStr "ref")
       ∧ dict_get "cachedir" (ArgoDataFetcher.fetcher_options f)
         = Some (PyStr "tmp").
Proof.
  assert (NoDup (keys [("cachedir", PyStr "tmp"); ("cache", PyBool true)]))
    as Hnd.
  { apply (bool_decide_unpack _). vm_compute. exact I. }
  assert ("ds" ∉ keys [("cachedir", PyStr "tmp"); ("cache", PyBool true)])
    as Hnotin.
  { apply (bool_decide_unpack _). vm_compute. exact I. }
  assert ("ref" ≠ "") as Hne by discriminate.
  destruct (data_explicit_dataset_is_stored stub_env "" "" "ref"
              [("cachedir", PyStr "tmp"); ("cache", PyBool true)]
              empty_world 0 _ Hne Hnd Hnotin eq_refl)
    as (f & Hf & Hid & Hds & Hopts).
  exists f. split; [exact Hf|]. split; [exact Hid|]. split; [exact Hds|].
  apply Hopts. reflexivity.
Defined.


Lemma data_access_point_rejects_repeated_keyword_witness :
  ∃ msg,
    ArgoDataFetcher.select (ArgoDataFetcher.Select_float (PyInt 6902746) []) 0
      data_wmo_option = (Raise (TypeError msg), data_wmo_option).
Proof.
  assert ("WMO" ∈ keys [("WMO", PyInt 6902746)]) as Hk.
  { apply (bool_decide_unpack _). vm_compute. exact I. }
  assert (is_Some (Some (stub_data_fetcher))) as Hsome by (by eexists).
  exact (data_access_point_rejects_repeated_keyword
           (ArgoDataFetcher.Select_float (PyInt 6902746) []) 0
           data_wmo_option _ "WMO" eq_refl Hsome Hk eq_refl).
Defined.

Lemma data_backend_errors_propagate_witness :
  ArgoDataFetcher.to_xarray 0 [] data_offline_bound
  = (Raise (CollaboratorError "server unreachable"), data_offline_bound)
  ∧ ArgoDataFetcher.to_dataframe lenient_env 0 [] data_offline_bound
    = (Raise (CollaboratorError "server unreachable"), data_offline_bound).
Proof.
  exact (data_backend_errors_propagate lenient_env 0 [] data_offline_bound
           _ 0 _ (CollaboratorError "server unreachable")
           eq_refl eq_refl eq_refl (or_introl eq_refl)).
Defined.

Lemma configuration_is_immutable_witness :
  ∃ f', facades data_bound !! 0 = Some f'
        ∧ ArgoDataFetcher._dataset_id f' = Some "phy"
        ∧ ArgoDataFetcher.fetcher_options f' = [("ds", PyStr "")].
Proof.
  destruct (configuration_is_immutable stub_env) as [Hdata _].
  destruct (Hdata data_fresh
              (ArgoDataFetcher.Call_float 0 (PyInt 6902746) []) 0 _ eq_refl)
    as (f' & Hf' & _ & Hid & _ & _ & _ & Hopts).
  exists f'. split; [exact Hf'|]. split; [exact Hid|exact Hopts].
Defined.

Lemma facades_are_independent_witness :
  facades (ArgoDataFetcher.select
             (ArgoDataFetcher.Select_region (PyList [])) 1
             (ArgoDataFetcher.run stub_env
                (ArgoDataFetcher.Call_init "expert" "" (Some "ref") [])
                data_bound)).2 !! 0
  = facades data_bound !! 0
  ∧ fetchers (ArgoIndexFetcher.run stub_env
                (ArgoIndexFetcher.Call_region 0 (PyList [])) index_bound) !! 0
    = Some {| index_to_dataframe := λ _, Ok ["index"];
              index_to_xarray := λ _, Ok ["index"] |}.
Proof.
  destruct (facades_are_independent stub_env) as (Hdata & _ & _ & Hindex).
  split.
  - rewrite (Hdata _ (ArgoDataFetcher.Select_region (PyList [])) 1 0)
      by discriminate.
    reflexivity.
  - apply Hindex. reflexivity.
Defined.

Lemma index_plot_fetches_before_dispatch_witness :
  ArgoIndexFetcher.plot stub_env 0 (Some "bogus") index_fresh
  = (Raise (InvalidFetcher " Initialize an access point (float,region) first."),
     index_fresh).
Proof.
  exact (index_plot_fetches_before_dispatch stub_env 0 index_fresh _
           (Some "bogus") eq_refl).
Defined.

Lemma attribute_access_on_constructed_facade_witness :
  ArgoDataFetcher.getattr 1000
    (ArgoDataFetcher.class_attrs ++ ArgoDataFetcher.instance_attrs
       ++ object_attrs) 0 "to_csv" data_bound
  = (Raise (InvalidFetcherAccessPoint "'to_csv' is not a valid access point"),
     data_bound)
  ∧ ArgoIndexFetcher.getattr 1000
      (ArgoIndexFetcher.class_attrs ++ ArgoIndexFetcher.instance_attrs
         ++ object_attrs) 0 "to_csv" index_fresh
    = (Ok (Defined "to_csv"), index_fresh).
Proof.
  destruct (attribute_access_on_constructed_facade stub_env)
    as [Hdata Hindex].
  split.
  - exact (Hdata data_bound 0 _ 1000 "to_csv" data_bound_is_reachable eq_refl).
  - assert (ArgoIndexFetcher.reachable stub_env index_fresh) as Hreach.
    { apply ArgoIndexFetcher.reachable_run, ArgoIndexFetcher.reachable_empty. }
    exact (Hindex index_fresh 0 _ 1000 "to_csv" Hreach eq_refl).
Defined.

Lemma data_repr_summary_witness :
  (ArgoDataFetcher.__repr__ stub_data_repr 0 data_fresh).1
  = Ok ("<datafetcher 'Not initialised'>" +:+ newline
        +:+ "Backend: erddap" +:+ newline
        +:+ "Fetchers: profile, float, region" +:+ newline
        +:+ "User mode: standard")
  ∧ (ArgoDataFetcher.__repr__ stub_data_repr 0 data_bound).1
    = Ok ("<datafetcher 'stub'>" +:+ newline
          +:+ "Backend: erddap" +:+ newline
          +:+ "User mode: standard").
Proof.
  split.
  - exact (proj2 (data_repr_summary stub_data_repr data_fresh 0 _ eq_refl)).
  - exact (proj2 (data_repr_summary stub_data_repr data_bound 0 _ eq_refl)
             _ eq_refl).
Defined.

Lemma index_repr_ignores_backend_witness :
  ArgoIndexFetcher.__repr__ stub_index_repr 0 index_gridded
  = (Ok ("<indexfetcher 'Not initialised'>" +:+ newline
         +:+ "Fetchers: 'float' or 'region'" +:+ newline
         +:+ "User mode: standard"), index_gridded)
  ∧ (ArgoIndexFetcher.__repr__ stub_index_repr 0 index_localftp).1
    = (ArgoIndexFetcher.__repr__ stub_index_repr 0 index_gridded).1.
Proof.
  pose proof (index_repr_ignores_backend stub_index_repr index_gridded 0 _
                eq_refl eq_refl) as Hgridded.
  pose proof (index_repr_ignores_backend stub_index_repr index_localftp 0 _
                eq_refl eq_refl) as Hlocalftp.
  split; [exact Hgridded|]. rewrite Hgridded, Hlocalftp. reflexivity.
Defined.

Lemma index_never_postprocesses_witness :
  ArgoIndexFetcher.reachable stub_env index_bound
  ∧ ArgoIndexFetcher.to_xarray 0 [] index_bound = (Ok ["index"], index_bound).
Proof.
  assert (ArgoIndexFetcher.reachable stub_env index_bound) as Hreach.
  { apply ArgoIndexFetcher.reachable_run, ArgoIndexFetcher.reachable_run,
      ArgoIndexFetcher.reachable_empty. }
  split; [exact Hreach|].
  destruct (index_never_postprocesses stub_env index_bound 0 _ Hreach eq_refl)
    as [_ Hx].
  exact (proj1 (Hx 0 _ [] eq_refl eq_refl)).
Defined.

(** ** From the constructor call to the backend constructor *)

Section OptionsEndToEnd.
Context {Dataset Frame Figure : Type}.
Context (env : Env Dataset Frame Figure).




End OptionsEndToEnd.



(** ** Attribute access without the list of access points *)

Section AttributeRecursion.
Context {Dataset Frame : Type}.

(** X20: on an object on which the normal lookup does not find
    [valid_access_points] (an instance [__init__] has not run on, as the
    copy and pickle protocols make, or one the attribute was deleted
    from), every attribute access that the normal lookup does not resolve
    ends in [RecursionError], on both facades and whatever the recursion
    limit: [__getattr__] reads [self.valid_access_points], which calls
    [__getattr__] again.  The store is left as it was. *)
Theorem attribute_access_recurses_without_access_points :
  (∀ (w : World (ArgoDataFetcher.t Dataset) (DataFetcherObj Dataset) Frame)
     self limit defined key,
     "valid_access_points" ∉ defined →
     key ∉ defined →
     ∃ msg, ArgoDataFetcher.getattr limit defined self key w
            = (Raise (RecursionError msg), w))
  ∧ (∀ (w : World (ArgoIndexFetcher.t Dataset Frame)
              (IndexFetcherObj Dataset Frame) Frame)
       self limit defined key,
       "valid_access_points" ∉ defined →
       key ∉ defined →
       ∃ msg, ArgoIndexFetcher.getattr limit defined self key w
              = (Raise (RecursionError msg), w)).
Proof.
  split; intros w self limit defined key Hlist Hdef; eexists.
  - by apply data_getattr_recursion.
  - by apply index_getattr_recursion.
Qed.
End AttributeRecursion.

Lemma attribute_access_recurses_without_access_points_witness :
  ∃ msg,
    ArgoDataFetcher.getattr 1000 (ArgoDataFetcher.class_attrs ++ object_attrs)
      0 "__setstate__" data_bound
    = (Raise (RecursionError msg), data_bound).
Proof.
  destruct (attribute_access_recurses_without_access_points
              (Dataset:=list string) (Frame:=list string)) as [Hdata _].
  apply Hdata; apply (bool_decide_unpack _); vm_compute; exact I.
Defined.
